(** * Configuration-space search of the model analyzer

    A shallow embedding of
      - [model_analyzer/config/generate/run_config_generator.py]
        (class [RunConfigGenerator], the composite exhaustive enumerator) and
      - [model_analyzer/config/generate/undirected_run_config_generator.py]
        (class [UndirectedRunConfigGenerator], the hill-climbing driver).

    Python objects become records, methods become state-passing functions
    that return the mutated object together with either a value or the
    exception that was raised, and Python generators become either a finite
    coroutine tree ([Gen], for the composite enumerator) or a resumable
    state machine ([pull], for the unbounded hill-climbing loop). *)

From stdpp Require Import base option list gmap strings fin_maps.
From Stdlib Require Import ZArith Lia.

Open Scope Z_scope.
Open Scope nat_scope.

(** ** Python runtime: exceptions, methods, list cells *)

Inductive Exn : Type :=
| IndexError
| KeyError
| TypeError
| AttributeError
| AssertionError
| RecursionError
| TritonModelAnalyzerException.

#[global] Instance Exn_eq_dec : EqDecision Exn.
Proof. solve_decision. Defined.

Inductive Res (A : Type) : Type :=
| Ok (a : A)
| Err (e : Exn).
Arguments Ok {A} a.
Arguments Err {A} e.

(** A method of an object of type [St]: the object is mutated in place, so
    the state comes back also when an exception is raised half-way. *)
Definition M (St A : Type) : Type := St -> Res A * St.

Definition ret {St A} (a : A) : M St A := fun s => (Ok a, s).
Definition raise {St A} (e : Exn) : M St A := fun s => (Err e, s).
Definition bindM {St A B} (c : M St A) (k : A -> M St B) : M St B :=
  fun s => match c s with
           | (Ok a, s') => k a s'
           | (Err e, s') => (Err e, s')
           end.
Definition get {St} : M St St := fun s => (Ok s, s).
Definition modify {St} (f : St -> St) : M St unit := fun s => (Ok tt, f s).
Definition lift {St A} (r : Res A) : M St A := fun s => (r, s).

Notation "'let!' x ':=' c 'in' k" := (bindM c (fun x => k))
  (at level 10, x pattern, c at level 100, k at level 200).
Notation "c ';;;' k" := (bindM c (fun _ => k))
  (at level 100, k at level 200, right associativity).

(** [l[i]] and [l[i] = x] on a Python list: out of range raises. *)
Definition py_getitem {A} (l : list A) (i : nat) : Res A :=
  match l !! i with
  | Some x => Ok x
  | None => Err IndexError
  end.

Definition py_setitem {A} (l : list A) (i : nat) (x : A) : Res (list A) :=
  if decide (i < length l) then Ok (<[i := x]> l) else Err IndexError.

(** [for i in range(n): body(i)] *)
Fixpoint for_range {St} (start n : nat) (body : nat -> M St unit) : M St unit :=
  match n with
  | 0 => ret tt
  | S n' => body start ;;; for_range (S start) n' body
  end.

(** All combinations of one item from each list, in depth-first order: the
    choice from the first list varies slowest. *)
Fixpoint product {A} (ls : list (list A)) : list (list A) :=
  match ls with
  | [] => [[]]
  | l :: ls' => flat_map (fun x => map (cons x) (product ls')) l
  end.

(** ** Model specifications and the shared server environment *)

(** The server-environment descriptor is an opaque key-value mapping. *)
Abbreviation Env := (gmap string string).

(** Scalar values of Python dictionaries. *)
Inductive PyVal : Type :=
| PyStr (s : string)
| PyInt (z : Z).

(** [ConfigModelProfileSpec], as far as the two generators look at it. *)
Record Model : Type := {
  model_name : string;
  triton_server_environment : Env;
  perf_analyzer_flags : gmap string PyVal
}.

(** [RunConfigGenerator.determine_triton_server_env] *)
Fixpoint check_triton_env (triton_env : Env) (models : list Model) : Res Env :=
  match models with
  | [] => Ok triton_env
  | model :: rest =>
      if decide (triton_server_environment model ≠ triton_env)
      then Err TritonModelAnalyzerException
      else check_triton_env triton_env rest
  end.

Definition determine_triton_server_env (models : list Model) : Res Env :=
  match py_getitem models 0 with
  | Err e => Err e
  | Ok model0 => check_triton_env (triton_server_environment model0) models
  end.

(** ** Python generators with feedback through the shared object

    A generator suspended at a [yield] hands control to the consumer, which
    may call methods on the very object the generator belongs to; on
    resumption the generator continues with the object as the consumer left
    it.  [Yield y s k] therefore exposes the object [s] and resumes with the
    object it is given back. *)

Inductive Gen (Y St : Type) : Type :=
| Return (s : St)
| Raise (e : Exn) (s : St)
| Yield (y : Y) (s : St) (k : St -> Gen Y St).
Arguments Return {Y St} s.
Arguments Raise {Y St} e s.
Arguments Yield {Y St} y s k.

(** [yield from g] followed by the rest of the body [f]. *)
Fixpoint yield_from {Y St} (g : Gen Y St) (f : St -> Gen Y St) : Gen Y St :=
  match g with
  | Return s => f s
  | Raise e s => Raise e s
  | Yield y s k => Yield y s (fun s' => yield_from (k s') f)
  end.

(** A plain method call inside a generator body. *)
Definition call {Y St A} (c : M St A) (s : St) (f : A -> St -> Gen Y St) : Gen Y St :=
  match c s with
  | (Ok a, s') => f a s'
  | (Err e, s') => Raise e s'
  end.

(** ** The composite enumerator: [RunConfigGenerator] *)

Module Composite.

Section Composite.

(** The configuration objects a sub-enumerator produces and the
    measurements the consumer feeds back are opaque to the enumerator. *)
Context {ModelRunConfig Measurement : Type}.

(** Modelled from the spec: the per-model configuration sub-enumerator
    [ModelRunConfigGenerator] is not part of these sources.  It is a
    finite lazy sequence of configuration objects, parameterized by a
    default-only flag: restricted to defaults it yields exactly one
    configuration, otherwise it yields all legal configurations of its
    model.  The object records every feedback list it is handed. *)
Variable default_config : Model -> ModelRunConfig.
Variable all_configs : Model -> list ModelRunConfig.

(** Modelled from the spec: a [ModelRunConfigGenerator] object, made for one
    model with a default-only flag; [mrcg_last_results] lists what its
    [set_last_results] has been called with. *)
Record MRCG : Type := {
  mrcg_model : Model;
  mrcg_default_only : bool;
  mrcg_last_results : list (list Measurement)
}.

(** Modelled from the spec: [ModelRunConfigGenerator.get_configs], the items
    of the sequence in order: the single default configuration, or all legal
    configurations of the model. *)
Definition mrcg_get_configs (g : MRCG) : list ModelRunConfig :=
  if mrcg_default_only g then [default_config (mrcg_model g)]
  else all_configs (mrcg_model g).

(** Modelled from the spec: [ModelRunConfigGenerator.set_last_results]
    takes the feedback; what it does with it is not specified. *)
Definition mrcg_set_last_results (measurements : list Measurement) (g : MRCG) : MRCG :=
  {| mrcg_model := mrcg_model g;
     mrcg_default_only := mrcg_default_only g;
     mrcg_last_results := mrcg_last_results g ++ [measurements] |}.

(** [RunConfig]: one server environment and the per-model entries in the
    order they were added (an entry may be Python's [None]). *)
Record RunConfig : Type := {
  rc_triton_env : Env;
  rc_model_run_configs : list (option ModelRunConfig)
}.

Definition add_model_run_config (c : option ModelRunConfig) (rc : RunConfig) : RunConfig :=
  {| rc_triton_env := rc_triton_env rc;
     rc_model_run_configs := rc_model_run_configs rc ++ [c] |}.

(** Calls observed on the sub-enumerator objects and feedback calls of
    the consumer, in the order they happen.  A sub-enumerator object is
    named by its address in [heap]. *)
Inductive Event : Type :=
| EvCreate (g : nat) (index : nat) (default_only : bool)
| EvNext (g : nat)
| EvSend (g : nat) (index : nat) (results : list Measurement)
| EvFeedback (measurements : list Measurement).

(** The [RunConfigGenerator] object.  [config], [gpus], [client] and the
    variant-name manager are only handed on to the sub-enumerators and are
    left out.  [heap] holds the sub-enumerator objects that
    [curr_generators] refers to; [trace] lists the events, most recent
    first. *)
Record RunConfigGenerator : Type := {
  models : list Model;
  triton_env : Env;
  num_models : nat;
  curr_model_run_configs : list (option ModelRunConfig);
  curr_results : list (list Measurement);
  curr_generators : list (option nat);
  default_returned : bool;
  heap : list MRCG;
  trace : list Event
}.

Definition set_curr_model_run_configs v (s : RunConfigGenerator) :=
  {| models := models s; triton_env := triton_env s; num_models := num_models s;
     curr_model_run_configs := v; curr_results := curr_results s;
     curr_generators := curr_generators s; default_returned := default_returned s;
     heap := heap s; trace := trace s |}.
Definition set_curr_results v (s : RunConfigGenerator) :=
  {| models := models s; triton_env := triton_env s; num_models := num_models s;
     curr_model_run_configs := curr_model_run_configs s; curr_results := v;
     curr_generators := curr_generators s; default_returned := default_returned s;
     heap := heap s; trace := trace s |}.
Definition set_curr_generators v (s : RunConfigGenerator) :=
  {| models := models s; triton_env := triton_env s; num_models := num_models s;
     curr_model_run_configs := curr_model_run_configs s; curr_results := curr_results s;
     curr_generators := v; default_returned := default_returned s;
     heap := heap s; trace := trace s |}.
Definition set_default_returned v (s : RunConfigGenerator) :=
  {| models := models s; triton_env := triton_env s; num_models := num_models s;
     curr_model_run_configs := curr_model_run_configs s; curr_results := curr_results s;
     curr_generators := curr_generators s; default_returned := v;
     heap := heap s; trace := trace s |}.
Definition set_heap v (s : RunConfigGenerator) :=
  {| models := models s; triton_env := triton_env s; num_models := num_models s;
     curr_model_run_configs := curr_model_run_configs s; curr_results := curr_results s;
     curr_generators := curr_generators s; default_returned := default_returned s;
     heap := v; trace := trace s |}.
Definition log (ev : Event) (s : RunConfigGenerator) :=
  {| models := models s; triton_env := triton_env s; num_models := num_models s;
     curr_model_run_configs := curr_model_run_configs s; curr_results := curr_results s;
     curr_generators := curr_generators s; default_returned := default_returned s;
     heap := heap s; trace := ev :: trace s |}.

(** [__init__] *)
Definition init (models : list Model) : Res RunConfigGenerator :=
  match determine_triton_server_env models with
  | Err e => Err e
  | Ok env =>
      Ok {| models := models;
            triton_env := env;
            num_models := length models;
            curr_model_run_configs := replicate (length models) None;
            curr_results := replicate (length models) [];
            curr_generators := replicate (length models) None;
            default_returned := false;
            heap := [];
            trace := [] |}
  end.

(** [set_last_results] *)
Definition extend_results (measurements : list Measurement) (index : nat)
  : M RunConfigGenerator unit :=
  let! s := get in
  let! buf := lift (py_getitem (curr_results s) index) in
  modify (set_curr_results (<[index := buf ++ measurements]> (curr_results s))).

Definition set_last_results (measurements : list Measurement)
  : M RunConfigGenerator unit :=
  modify (log (EvFeedback measurements)) ;;;
  let! s := get in
  for_range 0 (num_models s) (extend_results measurements).

(** [_make_run_config] *)
Fixpoint add_model_run_configs (cur : list (option ModelRunConfig))
    (index n : nat) (run_config : RunConfig) : Res RunConfig :=
  match n with
  | 0 => Ok run_config
  | S n' =>
      match py_getitem cur index with
      | Err e => Err e
      | Ok c => add_model_run_configs cur (S index) n' (add_model_run_config c run_config)
      end
  end.

Definition _make_run_config : M RunConfigGenerator RunConfig :=
  let! s := get in
  lift (add_model_run_configs (curr_model_run_configs s) 0 (length (models s))
          {| rc_triton_env := triton_env s; rc_model_run_configs := [] |}).

(** [_send_results_to_generator] *)
Definition _send_results_to_generator (index : nat) : M RunConfigGenerator unit :=
  let! s := get in
  let! ref := lift (py_getitem (curr_generators s) index) in
  match ref with
  | None => raise AttributeError
  | Some g =>
      let! results := lift (py_getitem (curr_results s) index) in
      let! obj := lift (py_getitem (heap s) g) in
      modify (set_heap (<[g := mrcg_set_last_results results obj]> (heap s))) ;;;
      modify (log (EvSend g index results)) ;;;
      let! s := get in
      let! cleared := lift (py_setitem (curr_results s) index []) in
      modify (set_curr_results cleared)
  end.

(** The constructor call [ModelRunConfigGenerator(...)] allocates a new
    sub-enumerator object. *)
Definition new_mrcg (model : Model) (index : nat) (default_only : bool)
  : M RunConfigGenerator nat :=
  let! s := get in
  let g := length (heap s) in
  modify (set_heap (heap s ++ [{| mrcg_model := model;
                                  mrcg_default_only := default_only;
                                  mrcg_last_results := [] |}])) ;;;
  modify (log (EvCreate g index default_only)) ;;;
  ret g.

Abbreviation G := (Gen RunConfig RunConfigGenerator).

(** [_generate_subset].  The [for] statement over [mrcg.get_configs()] is
    [for_model_run_configs]: each round first asks the sub-enumerator
    [mrcg] for its next item, and the round that finds it exhausted leaves
    the loop.  [deeper] is the recursive call
    [self._generate_subset(index + 1, default_only)]. *)
Fixpoint for_model_run_configs (index mrcg : nat)
    (deeper : RunConfigGenerator -> G)
    (configs : list ModelRunConfig) (s : RunConfigGenerator) : G :=
  let s := log (EvNext mrcg) s in
  match configs with
  | [] => Return s
  | model_run_config :: configs' =>
      call (lift (py_setitem (curr_model_run_configs s) index
                    (Some model_run_config))) s (fun cur s =>
      let s := set_curr_model_run_configs cur s in
      yield_from
        (if (Z.of_nat index =? Z.of_nat (length (models s)) - 1)%Z
         then call _make_run_config s (fun run_config s =>
                Yield run_config s Return)
         else deeper s)
        (fun s =>
           call (_send_results_to_generator index) s (fun _ s =>
           for_model_run_configs index mrcg deeper configs' s)))
  end.

(** [fuel] bounds the depth of the recursion; the top-level calls pass the
    number of models, which is enough (see [generate_subset_spec]). *)
Fixpoint _generate_subset (fuel : nat) (index : nat) (default_only : bool)
    (s : RunConfigGenerator) : G :=
  match fuel with
  | 0 => Raise RecursionError s
  | S fuel' =>
      call (lift (py_getitem (models s) index)) s (fun model s =>
      call (new_mrcg model index default_only) s (fun mrcg s =>
      call (lift (py_setitem (curr_generators s) index (Some mrcg))) s (fun gens s =>
      let s := set_curr_generators gens s in
      for_model_run_configs index mrcg
        (_generate_subset fuel' (index + 1) default_only)
        (mrcg_get_configs {| mrcg_model := model;
                             mrcg_default_only := default_only;
                             mrcg_last_results := [] |}) s)))
  end.

(** [_get_next_config] and [get_configs] *)
Definition _get_next_config (s : RunConfigGenerator) : G :=
  yield_from (_generate_subset (length (models s)) 0 true s) (fun s =>
  let s := set_default_returned true s in
  _generate_subset (length (models s)) 0 false s).

Definition get_configs (s : RunConfigGenerator) : G := _get_next_config s.

(** The consumer: it pulls every value of the sequence and, before it
    asks for the next one, reports [feedback k rc] for the [k]-th produced
    [rc] through [set_last_results]. *)
Record Outcome : Type := {
  produced : list RunConfig;
  final : RunConfigGenerator;
  failure : option Exn
}.

Fixpoint consume (feedback : nat -> RunConfig -> list Measurement) (k : nat)
    (g : G) : Outcome :=
  match g with
  | Return s => {| produced := []; final := s; failure := None |}
  | Raise e s => {| produced := []; final := s; failure := Some e |}
  | Yield rc s resume =>
      match set_last_results (feedback k rc) s with
      | (Err e, s') => {| produced := [rc]; final := s'; failure := Some e |}
      | (Ok _, s') =>
          let o := consume feedback (S k) (resume s') in
          {| produced := rc :: produced o; final := final o; failure := failure o |}
      end
  end.

(** The whole sequence, pulled to its end by a consumer that reports
    [feedback] after every produced value. *)
Definition pull_all (feedback : nat -> RunConfig -> list Measurement)
    (s : RunConfigGenerator) : Outcome :=
  consume feedback 0 (get_configs s).

(** Feedback before advance, as a check on a trace (most recent event
    first): whenever a sub-enumerator is asked for its next item, the event
    just before is either its creation or the forwarding of the buffered
    feedback to that same sub-enumerator. *)
Definition advance_ok (prev : option Event) (ev : Event) : bool :=
  match ev with
  | EvNext g =>
      match prev with
      | Some (EvCreate g' _ _) => bool_decide (g = g')
      | Some (EvSend g' _ _) => bool_decide (g = g')
      | _ => false
      end
  | _ => true
  end.

Fixpoint feedback_before_advance (tr : list Event) : bool :=
  match tr with
  | [] => true
  | ev :: earlier => advance_ok (head earlier) ev && feedback_before_advance earlier
  end.

(** The feedback supplied since the last forwarding at depth [index]. *)
Fixpoint pending (index : nat) (tr : list Event) : list Measurement :=
  match tr with
  | [] => []
  | EvSend _ i _ :: earlier =>
      if decide (i = index) then [] else pending index earlier
  | EvFeedback measurements :: earlier => pending index earlier ++ measurements
  | _ :: earlier => pending index earlier
  end.

(** Every forwarding hands over exactly what was pending at its depth. *)
Fixpoint forwards_pending (tr : list Event) : Prop :=
  match tr with
  | [] => True
  | EvSend _ i results :: earlier =>
      results = pending i earlier /\ forwards_pending earlier
  | _ :: earlier => forwards_pending earlier
  end.

(** The reading of the specification under which feedback for a value
    produced at the deepest level is handed to the sub-enumerator of that
    level only: every forwarding event of a run is at depth [d]. *)
Definition feedback_reaches_only_depth (d : nat) (tr : list Event) : Prop :=
  forall g index results, In (EvSend g index results) tr -> results <> [] -> index = d.

End Composite.

End Composite.

(** ** The hill-climbing driver: [UndirectedRunConfigGenerator] *)

Module HillClimb.

(** Modelled from the spec: [Coordinate] is not part of these sources.  It
  is an ordered tuple of non-negative integers, compared by value. *)
Abbreviation Coordinate := (list nat).

Section CoordinateData.

Context {Throughput : Type}.

(** Modelled from the spec: [CoordinateData] is not part of these
    sources.  It is a mapping from Coordinate to a visit count (zero until
    the first visit) and an optional throughput (unknown until one is
    set). *)
Record CoordinateData : Type := {
  visit_counts : gmap (list nat) nat;
  throughputs : gmap (list nat) Throughput
}.

(** Modelled from the spec: a new [CoordinateData] knows no coordinate. *)
Definition CoordinateData_new : CoordinateData :=
  {| visit_counts := ∅; throughputs := ∅ |}.

(** Modelled from the spec: [get_visit_count], zero for a coordinate never
    visited. *)
Definition get_visit_count (cd : CoordinateData) (c : Coordinate) : nat :=
  default 0 (visit_counts cd !! c).

(** Modelled from the spec: [increment_visit_count] adds one to the count
    of the coordinate. *)
Definition increment_visit_count (c : Coordinate) (cd : CoordinateData) : CoordinateData :=
  {| visit_counts := <[c := get_visit_count cd c + 1]> (visit_counts cd);
     throughputs := throughputs cd |}.

(** Modelled from the spec: [get_throughput], [None] while no throughput
    has been set for the coordinate. *)
Definition get_throughput (cd : CoordinateData) (c : Coordinate) : option Throughput :=
  throughputs cd !! c.

(** Modelled from the spec: [set_throughput] records the throughput of the
    coordinate. *)
Definition set_throughput (c : Coordinate) (t : Throughput) (cd : CoordinateData) : CoordinateData :=
  {| visit_counts := visit_counts cd;
     throughputs := <[c := t]> (throughputs cd) |}.

End CoordinateData.
Arguments CoordinateData Throughput : clear implicits.

(** The parameter dictionary handed to
  [BaseModelConfigGenerator.make_model_config]. *)
Record InstanceGroup : Type := {
count : Z;
kind : string;
rate_limiter_priority : Z
}.

Record ParamCombo : Type := {
dynamic_batching : gmap string PyVal;
max_batch_size : Z;
instance_group : list InstanceGroup
}.

Section Driver.

Context {Measurement Throughput ModelConfig PerfAnalyzerConfig
         NeighborhoodConfig VariantNameManager : Type}.

(** [Measurement.get_non_gpu_metric_value] *)
Variable get_non_gpu_metric_value : Measurement -> string -> Throughput.

(** The search configuration ([SearchConfig]) is read-only input: the
    minimum index vector, radius, step magnitude, the neighborhood
    configuration for an optional radius, and the Dimension lookup
    [get_dimensions().get_values_for_coordinate], which returns the
    per-model dictionaries of concrete values (or raises). *)
Variable get_min_indexes : list nat.
Variable get_radius : Z.
Variable get_step_magnitude : Z.
Variable get_neighborhood_config : option Z -> NeighborhoodConfig.
Variable get_values_for_coordinate : option Coordinate -> Res (list (gmap string Z)).

(** A [Neighborhood] keeps its configuration, its center and a reference
    to the driver's [CoordinateData]; the shared data is passed to each of
    its methods.  The sampling and stepping policies themselves are left
    open. *)
Record Neighborhood : Type := {
  nb_config : NeighborhoodConfig;
  nb_center : Coordinate
}.

Variable enough_coordinates_initialized :
  Neighborhood -> CoordinateData Throughput -> bool.
Variable calculate_new_coordinate :
  Neighborhood -> CoordinateData Throughput -> Z -> Coordinate.
Variable pick_coordinate_to_initialize :
  Neighborhood -> CoordinateData Throughput -> option Coordinate.
Variable get_nearest_unvisited_neighbor :
  Neighborhood -> CoordinateData Throughput -> option Coordinate -> option Coordinate.

(** [BaseModelConfigGenerator.make_model_config] builds the model
    configuration and may register a variant name; [get_field('name')]
    reads the variant name back. *)
Variable make_model_config :
  ParamCombo -> Model -> VariantNameManager -> ModelConfig * VariantNameManager.
Variable get_field_name : ModelConfig -> string.

(** [PerfAnalyzerConfig()] and [PerfAnalyzerConfig.update_config] *)
Variable PerfAnalyzerConfig_new : PerfAnalyzerConfig.
Variable update_config : gmap string PyVal -> PerfAnalyzerConfig -> PerfAnalyzerConfig.
Variable VariantNameManager_new : VariantNameManager.

Record ModelRunConfig : Type := {
  mrc_model_name : string;
  mrc_model_config : ModelConfig;
  mrc_perf_config : PerfAnalyzerConfig
}.

Record RunConfig : Type := {
  rc_triton_env : Env;
  rc_model_run_configs : list ModelRunConfig
}.

Definition add_model_run_config (mrc : ModelRunConfig) (rc : RunConfig) : RunConfig :=
  {| rc_triton_env := rc_triton_env rc;
     rc_model_run_configs := rc_model_run_configs rc ++ [mrc] |}.

(** The [UndirectedRunConfigGenerator] object ([search_config], [config],
    [gpus] and [client] are read-only and left out). *)
Record UndirectedRunConfigGenerator : Type := {
  models : list Model;
  variant_name_manager : VariantNameManager;
  triton_env : Env;
  coordinate_data : CoordinateData Throughput;
  current_coordinate : Coordinate;
  coordinate_to_measure : option Coordinate;
  radius_offset : Z;
  magnitude_offset : Z;
  neighborhood : Neighborhood;
  generator_started : bool;
  done : bool
}.

Definition set_variant_name_manager v (s : UndirectedRunConfigGenerator) :=
  {| models := models s; variant_name_manager := v; triton_env := triton_env s;
     coordinate_data := coordinate_data s; current_coordinate := current_coordinate s;
     coordinate_to_measure := coordinate_to_measure s; radius_offset := radius_offset s;
     magnitude_offset := magnitude_offset s; neighborhood := neighborhood s;
     generator_started := generator_started s; done := done s |}.
Definition set_coordinate_data v (s : UndirectedRunConfigGenerator) :=
  {| models := models s; variant_name_manager := variant_name_manager s;
     triton_env := triton_env s;
     coordinate_data := v; current_coordinate := current_coordinate s;
     coordinate_to_measure := coordinate_to_measure s; radius_offset := radius_offset s;
     magnitude_offset := magnitude_offset s; neighborhood := neighborhood s;
     generator_started := generator_started s; done := done s |}.
Definition set_current_coordinate v (s : UndirectedRunConfigGenerator) :=
  {| models := models s; variant_name_manager := variant_name_manager s;
     triton_env := triton_env s;
     coordinate_data := coordinate_data s; current_coordinate := v;
     coordinate_to_measure := coordinate_to_measure s; radius_offset := radius_offset s;
     magnitude_offset := magnitude_offset s; neighborhood := neighborhood s;
     generator_started := generator_started s; done := done s |}.
Definition set_coordinate_to_measure v (s : UndirectedRunConfigGenerator) :=
  {| models := models s; variant_name_manager := variant_name_manager s;
     triton_env := triton_env s;
     coordinate_data := coordinate_data s; current_coordinate := current_coordinate s;
     coordinate_to_measure := v; radius_offset := radius_offset s;
     magnitude_offset := magnitude_offset s; neighborhood := neighborhood s;
     generator_started := generator_started s; done := done s |}.
Definition set_neighborhood v (s : UndirectedRunConfigGenerator) :=
  {| models := models s; variant_name_manager := variant_name_manager s;
     triton_env := triton_env s;
     coordinate_data := coordinate_data s; current_coordinate := current_coordinate s;
     coordinate_to_measure := coordinate_to_measure s; radius_offset := radius_offset s;
     magnitude_offset := magnitude_offset s; neighborhood := v;
     generator_started := generator_started s; done := done s |}.
Definition set_generator_started v (s : UndirectedRunConfigGenerator) :=
  {| models := models s; variant_name_manager := variant_name_manager s;
     triton_env := triton_env s;
     coordinate_data := coordinate_data s; current_coordinate := current_coordinate s;
     coordinate_to_measure := coordinate_to_measure s; radius_offset := radius_offset s;
     magnitude_offset := magnitude_offset s; neighborhood := neighborhood s;
     generator_started := v; done := done s |}.
Definition set_done v (s : UndirectedRunConfigGenerator) :=
  {| models := models s; variant_name_manager := variant_name_manager s;
     triton_env := triton_env s;
     coordinate_data := coordinate_data s; current_coordinate := current_coordinate s;
     coordinate_to_measure := coordinate_to_measure s; radius_offset := radius_offset s;
     magnitude_offset := magnitude_offset s; neighborhood := neighborhood s;
     generator_started := generator_started s; done := v |}.

Abbreviation Method := (M UndirectedRunConfigGenerator).

(** Modelled from the spec: [CoordinateData] maps Coordinates; a method of
    it called with [None] in place of a Coordinate raises, since [None] is
    not a Coordinate. *)
Definition the_coordinate (c : option Coordinate) : Method Coordinate :=
  match c with
  | Some c => ret c
  | None => raise TypeError
  end.

(** [_get_starting_coordinate] *)
Definition _get_starting_coordinate : Coordinate := get_min_indexes.

(** [__init__] *)
Definition init (models : list Model) : Res UndirectedRunConfigGenerator :=
  match determine_triton_server_env models with
  | Err e => Err e
  | Ok env =>
      let coordinate_data := CoordinateData_new in
      let current_coordinate := _get_starting_coordinate in
      Ok {| models := models;
            variant_name_manager := VariantNameManager_new;
            triton_env := env;
            coordinate_data := coordinate_data;
            current_coordinate := current_coordinate;
            coordinate_to_measure := Some current_coordinate;
            radius_offset := 0;
            magnitude_offset := 0;
            neighborhood := {| nb_config := get_neighborhood_config None;
                               nb_center := current_coordinate |};
            generator_started := false;
            done := false |}
  end.

(** [_is_done] *)
Definition _is_done (s : UndirectedRunConfigGenerator) : bool := done s.

(** [_get_last_results] *)
Definition _get_last_results : Method (option Throughput) :=
  let! s := get in
  let! c := the_coordinate (coordinate_to_measure s) in
  ret (get_throughput (coordinate_data s) c).

(** [set_last_results].  [measurements] is [None] or a list whose items
    are measurements or [None].  The debug message is formatted with
    [_get_last_results()], which reads the object without changing it. *)
Definition set_last_results (measurements : option (list (option Measurement)))
  : Method unit :=
  let! s := get in
  let! c := the_coordinate (coordinate_to_measure s) in
  modify (set_coordinate_data (increment_visit_count c (coordinate_data s))) ;;;
  match measurements with
  | None => ret tt
  | Some ms =>
      let! first := lift (py_getitem ms 0) in
      match first with
      | None => ret tt
      | Some measurement =>
          if decide (length ms = 1) then
            let throughput := get_non_gpu_metric_value measurement "perf_throughput" in
            let! s := get in
            let! c := the_coordinate (coordinate_to_measure s) in
            modify (set_coordinate_data (set_throughput c throughput (coordinate_data s))) ;;;
            let! _ := _get_last_results in
            ret tt
          else raise AssertionError
      end
  end.

(** [_handle_invalid_last_results] *)
Definition _handle_invalid_last_results : Method unit :=
  let! s := get in
  modify (set_coordinate_to_measure
            (get_nearest_unvisited_neighbor (neighborhood s) (coordinate_data s)
               (coordinate_to_measure s))).

(** [_get_radius], [_get_magnitude] *)
Definition _get_radius (s : UndirectedRunConfigGenerator) : Z :=
  (get_radius + radius_offset s)%Z.
Definition _get_magnitude (s : UndirectedRunConfigGenerator) : Z :=
  (get_step_magnitude + magnitude_offset s)%Z.

(** [_determine_if_done] *)
Definition _determine_if_done (new_coordinate : Coordinate) : Method unit :=
  (let! s := get in
   if decide (new_coordinate = current_coordinate s)
   then modify (set_done true) else ret tt) ;;;
  (let! s := get in
   if decide (2 <= get_visit_count (coordinate_data s) new_coordinate)
   then modify (set_done true) else ret tt).

(** [_recreate_neighborhood] *)
Definition _recreate_neighborhood : Method unit :=
  let! s := get in
  let neighborhood_config := get_neighborhood_config (Some (_get_radius s)) in
  modify (set_neighborhood {| nb_config := neighborhood_config;
                              nb_center := current_coordinate s |}).

(** [_take_step] *)
Definition _take_step : Method unit :=
  let! s := get in
  let magnitude := _get_magnitude s in
  let new_coordinate :=
    calculate_new_coordinate (neighborhood s) (coordinate_data s) magnitude in
  _determine_if_done new_coordinate ;;;
  modify (set_current_coordinate new_coordinate) ;;;
  modify (set_coordinate_to_measure (Some new_coordinate)) ;;;
  _recreate_neighborhood.

(** [_pick_coordinate_to_initialize] *)
Definition _pick_coordinate_to_initialize : Method unit :=
  let! s := get in
  modify (set_coordinate_to_measure
            (pick_coordinate_to_initialize (neighborhood s) (coordinate_data s))).

(** [_step] *)
Definition _step : Method unit :=
  (let! last := _get_last_results in
   match last with
   | None => _handle_invalid_last_results
   | Some _ =>
       let! s := get in
       if enough_coordinates_initialized (neighborhood s) (coordinate_data s)
       then _take_step
       else _pick_coordinate_to_initialize
   end) ;;;
  let! s := get in
  match coordinate_to_measure s with
  | None => modify (set_done true)
  | Some _ => ret tt
  end.

(** [_get_coordinate_values] *)
Definition _get_coordinate_values (coordinate : option Coordinate) (key : nat)
  : Method (gmap string Z) :=
  let! values := lift (get_values_for_coordinate coordinate) in
  lift (py_getitem values key).

Definition dict_getitem (d : gmap string Z) (k : string) : Res Z :=
  match d !! k with
  | Some v => Ok v
  | None => Err KeyError
  end.

(** [_get_next_model_config] *)
Definition _get_next_model_config (model_num : nat) : Method ModelConfig :=
  let! s := get in
  let! dimension_values := _get_coordinate_values (coordinate_to_measure s) model_num in
  let! mbs := lift (dict_getitem dimension_values "max_batch_size") in
  let! ic := lift (dict_getitem dimension_values "instance_count") in
  let param_combo :=
    {| dynamic_batching := ∅;
       max_batch_size := mbs;
       instance_group := [ {| count := ic;
                              kind := "KIND_GPU";
                              rate_limiter_priority := 1 |} ] |} in
  let! model := lift (py_getitem (models s) model_num) in
  let '(model_config, names) :=
    make_model_config param_combo model (variant_name_manager s) in
  modify (set_variant_name_manager names) ;;;
  ret model_config.

(** [_get_next_perf_analyzer_config] *)
Definition perf_config_params (model_variant_name : string) (concurrency : Z)
  : gmap string PyVal :=
  <["model-name" := PyStr model_variant_name]>
  (<["latency-report-file" := PyStr (model_variant_name +:+ "-results.csv")]>
  (<["measurement-mode" := PyStr "count_windows"]>
  (<["batch-size" := PyInt 1]>
  (<["verbose-csv" := PyStr "--verbose-csv"]>
  (<["concurrency-range" := PyInt concurrency]> ∅))))).

Definition _get_next_perf_analyzer_config (model_variant_name : string)
    (model_num : nat) : Method PerfAnalyzerConfig :=
  let! s := get in
  let! dimension_values := _get_coordinate_values (coordinate_to_measure s) model_num in
  let perf_analyzer_config := PerfAnalyzerConfig_new in
  let! concurrency := lift (dict_getitem dimension_values "concurrency") in
  let perf_analyzer_config :=
    update_config (perf_config_params model_variant_name concurrency)
      perf_analyzer_config in
  let! model := lift (py_getitem (models s) model_num) in
  ret (update_config (perf_analyzer_flags model) perf_analyzer_config).

(** [_get_next_model_run_config] *)
Definition _get_next_model_run_config (model_num : nat) : Method ModelRunConfig :=
  let! mc := _get_next_model_config model_num in
  let model_variant_name := get_field_name mc in
  let! pac := _get_next_perf_analyzer_config model_variant_name model_num in
  let! s := get in
  let! model := lift (py_getitem (models s) model_num) in
  ret {| mrc_model_name := model_name model;
         mrc_model_config := mc;
         mrc_perf_config := pac |}.

(** [_get_next_run_config]: the loop [for i, _ in enumerate(self._models)]
    with the local [run_config]. *)
Fixpoint add_model_run_configs (i n : nat) (run_config : RunConfig) : Method RunConfig :=
  match n with
  | 0 => ret run_config
  | S n' =>
      let! mrc := _get_next_model_run_config i in
      add_model_run_configs (S i) n' (add_model_run_config mrc run_config)
  end.

Definition _get_next_run_config : Method RunConfig :=
  let! s := get in
  add_model_run_configs 0 (length (models s))
    {| rc_triton_env := triton_env s; rc_model_run_configs := [] |}.

(** [get_configs].  The generator never leaves its [while True] loop by
    itself, so it is modelled by what one [next()] does in each state of
    its frame: not yet started, suspended at the [yield], or closed by an
    exception that escaped from its body. *)
Inductive Frame : Type :=
| Created
| AtYield
| Closed.

Inductive Pulled : Type :=
| Yielded (config : RunConfig)
| Raised (e : Exn)
| StopIteration.

Definition run_body (body : Method RunConfig) (s : UndirectedRunConfigGenerator)
  : Pulled * (Frame * UndirectedRunConfigGenerator) :=
  match body s with
  | (Ok config, s') => (Yielded config, (AtYield, s'))
  | (Err e, s') => (Raised e, (Closed, s'))
  end.

Definition yielded (p : Pulled) : bool :=
  match p with
  | Yielded _ => true
  | _ => false
  end.

Definition pull (fs : Frame * UndirectedRunConfigGenerator)
  : Pulled * (Frame * UndirectedRunConfigGenerator) :=
  let '(frame, s) := fs in
  match frame with
  | Created =>
      run_body (modify (set_generator_started true) ;;; _get_next_run_config) s
  | AtYield =>
      run_body (_step ;;; _get_next_run_config) s
  | Closed => (StopIteration, (Closed, s))
  end.

End Driver.

End HillClimb.

(** ** Concrete scenarios *)

Module Scenario.

Definition env_a : Env := {[ "LD_LIBRARY_PATH" := "/opt/lib" ]}%string.
Definition env_b : Env := {[ "LD_LIBRARY_PATH" := "/usr/lib" ]}%string.

Definition model_a : Model :=
  {| model_name := "a"; triton_server_environment := env_a; perf_analyzer_flags := ∅ |}.
Definition model_b : Model :=
  {| model_name := "b"; triton_server_environment := env_a; perf_analyzer_flags := ∅ |}.
Definition model_c : Model :=
  {| model_name := "c"; triton_server_environment := env_b; perf_analyzer_flags := ∅ |}.

(** Two models with two legal configurations each; configurations and
    measurements are numbered. *)
Definition default_config (m : Model) : nat :=
  if decide (model_name m = "a"%string) then 100 else 200.
Definition all_configs (m : Model) : list nat :=
  if decide (model_name m = "a"%string) then [10; 11] else [20; 21].

(** The consumer reports the number of the produced value as its
    measurement. *)
Definition feedback (k : nat) (rc : @Composite.RunConfig nat) : list nat := [k].

Definition composite_start : @Composite.RunConfigGenerator nat nat :=
  {| Composite.models := [model_a; model_b];
     Composite.triton_env := env_a;
     Composite.num_models := 2;
     Composite.curr_model_run_configs := [None; None];
     Composite.curr_results := [[]; []];
     Composite.curr_generators := [None; None];
     Composite.default_returned := false;
     Composite.heap := [];
     Composite.trace := [] |}.

Definition composite_run : @Composite.Outcome nat nat :=
  Composite.pull_all default_config all_configs feedback composite_start.

(** A hill climb over a search space that has a single point: one model
    whose three dimensions have one legal value each.  A measurement is its
    throughput. *)
Definition metric (m : Z) (tag : string) : Z := m.
Definition min_indexes : list nat := [0; 0; 0].
Definition radius : Z := 2.
Definition step_magnitude : Z := 1.
Definition neighborhood_config (r : option Z) : option Z := r.

Definition values_for_coordinate (c : option HillClimb.Coordinate)
  : Res (list (gmap string Z)) :=
  match c with
  | None => Err TypeError
  | Some [i; j; k] =>
      Ok [ <["max_batch_size" := 2 ^ Z.of_nat i]>
           (<["instance_count" := Z.of_nat j + 1]>
           (<["concurrency" := 2 ^ Z.of_nat k]> ∅)) ]%Z
  | Some _ => Err IndexError
  end.

(** The neighborhood of the only point is that point: it is initialized
    once the center has a throughput, a step stays at the center, and the
    center is the only candidate while it is unvisited. *)
Definition Nbhd : Type := @HillClimb.Neighborhood (option Z).

Definition enough (nb : Nbhd) (cd : HillClimb.CoordinateData Z) : bool :=
  bool_decide (is_Some (HillClimb.get_throughput cd (HillClimb.nb_center nb))).
Definition new_coordinate (nb : Nbhd) (cd : HillClimb.CoordinateData Z) (magnitude : Z)
  : HillClimb.Coordinate := HillClimb.nb_center nb.
Definition unvisited_center (nb : Nbhd) (cd : HillClimb.CoordinateData Z)
  : option HillClimb.Coordinate :=
  if decide (HillClimb.get_visit_count cd (HillClimb.nb_center nb) = 0)
  then Some (HillClimb.nb_center nb) else None.
Definition nearest_unvisited (nb : Nbhd) (cd : HillClimb.CoordinateData Z)
    (c : option HillClimb.Coordinate) : option HillClimb.Coordinate :=
  unvisited_center nb cd.

(** A model configuration is its parameters and its variant name; a
    load-generator configuration is a dictionary, updated key by key. *)
Definition make_config (pc : HillClimb.ParamCombo) (model : Model) (names : unit)
  : (HillClimb.ParamCombo * string) * unit :=
  ((pc, model_name model +:+ "_config_0"), tt).
Definition config_name (mc : HillClimb.ParamCombo * string) : string := snd mc.
Definition perf_update (params cfg : gmap string PyVal) : gmap string PyVal :=
  params ∪ cfg.

Definition HillState : Type := @HillClimb.UndirectedRunConfigGenerator Z (option Z) unit.

Definition hill_feed : option (list (option Z)) -> HillState -> Res unit * HillState :=
  HillClimb.set_last_results metric.

Definition hill_pull
  : HillClimb.Frame * HillState ->
    @HillClimb.Pulled (HillClimb.ParamCombo * string) (gmap string PyVal) *
    (HillClimb.Frame * HillState) :=
  HillClimb.pull radius step_magnitude neighborhood_config values_for_coordinate
    enough new_coordinate unvisited_center nearest_unvisited
    make_config config_name ∅ perf_update.

Definition hill_start : HillState :=
  {| HillClimb.models := [model_a];
     HillClimb.variant_name_manager := tt;
     HillClimb.triton_env := env_a;
     HillClimb.coordinate_data := HillClimb.CoordinateData_new;
     HillClimb.current_coordinate := [0; 0; 0];
     HillClimb.coordinate_to_measure := Some [0; 0; 0];
     HillClimb.radius_offset := 0;
     HillClimb.magnitude_offset := 0;
     HillClimb.neighborhood := {| HillClimb.nb_config := None;
                                  HillClimb.nb_center := [0; 0; 0] |};
     HillClimb.generator_started := false;
     HillClimb.done := false |}.

(** The first value has been produced. *)
Definition hill_produced : HillState :=
  snd (snd (hill_pull (HillClimb.Created, hill_start))).

(** The first value has been produced and the consumer has reported a
    measurement with throughput 100 (a flat surface: there is nothing else to
    compare it with). *)
Definition hill_measured : HillClimb.Frame * HillState :=
  let fs := snd (hill_pull (HillClimb.Created, hill_start)) in
  (fst fs, snd (hill_feed (Some [Some 100%Z]) (snd fs))).

(** The first value has been produced and the consumer has reported that
    the run failed. *)
Definition hill_failed : HillClimb.Frame * HillState :=
  let fs := snd (hill_pull (HillClimb.Created, hill_start)) in
  (fst fs, snd (hill_feed None (snd fs))).

End Scenario.

(** * Properties of the composite enumerator *)

Module CompositeFacts.

Import Composite.

Section Facts.

Context {ModelRunConfig Measurement : Type}.
Variable default_config : Model -> ModelRunConfig.
Variable all_configs : Model -> list ModelRunConfig.

Abbreviation State := (@RunConfigGenerator ModelRunConfig Measurement).
Abbreviation GenT := (Gen (@RunConfig ModelRunConfig) State).

(** Pulling through [yield from g] followed by [f] is pulling through [g]
    and then, unless something was raised, through [f]. *)
Definition then_outcome (o1 : @Outcome ModelRunConfig Measurement)
    (rest : State -> @Outcome ModelRunConfig Measurement) :=
  match failure o1 with
  | Some e => o1
  | None =>
      let o2 := rest (final o1) in
      {| produced := produced o1 ++ produced o2;
         final := final o2;
         failure := failure o2 |}
  end.

Lemma consume_yield_from feedback (g : GenT) (f : State -> GenT) k :
  consume feedback k (yield_from g f) =
  then_outcome (consume feedback k g)
    (fun s => consume feedback (k + length (produced (consume feedback k g))) (f s)).
Proof.
  revert k. induction g as [s | e s | rc s resume IH]; intros k; simpl.
  - unfold then_outcome; simpl. rewrite Nat.add_0_r. by destruct (consume feedback k (f s)).
  - reflexivity.
  - destruct (set_last_results (feedback k rc) s) as [[[]|e] s'] eqn:Hfb; [|reflexivity].
    rewrite IH. unfold then_outcome; simpl.
    destruct (failure (consume feedback (S k) (resume s'))) eqn:Hf; simpl.
    + by rewrite Hf.
    + by rewrite Nat.add_succ_r.
Qed.

(** *** The consumer's feedback call *)

Lemma set_curr_results_id (s : State) : set_curr_results (curr_results s) s = s.
Proof. by destruct s. Qed.

Lemma extend_all_buffers measurements n : forall start (s : State),
  start + n = length (curr_results s) ->
  for_range start n (extend_results measurements) s =
  (Ok tt, set_curr_results
            (take start (curr_results s) ++
             ((fun buf => buf ++ measurements) <$> drop start (curr_results s))) s).
Proof.
  induction n as [|n IH]; intros start s Hlen; simpl.
  - rewrite drop_ge, take_ge by lia. simpl. rewrite app_nil_r.
    by rewrite set_curr_results_id.
  - unfold bindM at 1. unfold extend_results at 1.
    unfold bindM, get, lift, modify, py_getitem.
    destruct (curr_results s !! start) as [buf|] eqn:Hbuf.
    2: { apply lookup_ge_None in Hbuf. lia. }
    rewrite IH by (simpl; rewrite length_insert; lia).
    simpl. f_equal. unfold set_curr_results; simpl. f_equal.
    rewrite (drop_S _ _ _ Hbuf). simpl.
    rewrite drop_insert_lt by lia.
    rewrite (take_S_r _ _ (buf ++ measurements)).
    2: { apply list_lookup_insert_eq. apply lookup_lt_Some in Hbuf. lia. }
    rewrite take_insert_ge by lia. by rewrite <- app_assoc.
Qed.

Lemma set_last_results_spec measurements (s : State) :
  num_models s = length (curr_results s) ->
  set_last_results measurements s =
  (Ok tt, set_curr_results ((fun buf => buf ++ measurements) <$> curr_results s)
            (log (EvFeedback measurements) s)).
Proof.
  intros Hn. unfold set_last_results, bindM at 1, modify at 1.
  unfold bindM at 1, get at 1. simpl.
  rewrite extend_all_buffers by (simpl; lia). simpl. reflexivity.
Qed.

(** *** State invariant and frame conditions *)

Record inv (s : State) : Prop := {
  inv_num : num_models s = length (models s);
  inv_cur : length (curr_model_run_configs s) = length (models s);
  inv_res : length (curr_results s) = length (models s);
  inv_gens : length (curr_generators s) = length (models s);
  inv_heap : forall i g, curr_generators s !! i = Some (Some g) -> g < length (heap s);
  inv_owned : forall i g, curr_generators s !! i = Some (Some g) ->
              exists d, In (EvCreate g i d) (trace s);
  inv_sends : forall g i ms, In (EvSend g i ms) (trace s) ->
              exists d, In (EvCreate g i d) (trace s);
  inv_fba : feedback_before_advance (trace s) = true;
  inv_pending : forall i buf, curr_results s !! i = Some buf -> buf = pending i (trace s);
  inv_forwards : forwards_pending (trace s)
}.

(** No feedback is waiting at depth [index] or deeper. *)
Definition settled (index : nat) (s : State) : Prop :=
  forall j buf, index <= j -> curr_results s !! j = Some buf -> buf = [].

Ltac use_inv H :=
  pose proof (inv_fba _ H); pose proof (inv_pending _ H); pose proof (inv_forwards _ H).

(** What a traversal at depth [index] leaves alone: the models, the
    environment, and the choices and sub-enumerators of shallower depths. *)
Record frame (index : nat) (s s' : State) : Prop := {
  fr_models : models s' = models s;
  fr_env : triton_env s' = triton_env s;
  fr_cur : take index (curr_model_run_configs s') = take index (curr_model_run_configs s);
  fr_gens : take index (curr_generators s') = take index (curr_generators s)
}.

Lemma frame_refl index s : frame index s s.
Proof. by split. Qed.

Lemma frame_trans index s1 s2 s3 :
  frame index s1 s2 -> frame index s2 s3 -> frame index s1 s3.
Proof. intros [] []. split; congruence. Qed.

Lemma take_le_eq {A} (l l' : list A) i j :
  i <= j -> take j l' = take j l -> take i l' = take i l.
Proof.
  intros Hij H. rewrite <- (Nat.min_l i j) by lia.
  rewrite <- !take_take. by rewrite H.
Qed.

Lemma frame_weaken i j s s' : i <= j -> frame j s s' -> frame i s s'.
Proof. intros Hij []. split; eauto using take_le_eq. Qed.

Lemma take_lookup_eq {A} (l l' : list A) i j :
  i < j -> take j l' = take j l -> l' !! i = l !! i.
Proof.
  intros Hij H. rewrite <- (lookup_take_lt l' j i), <- (lookup_take_lt l j i) by lia.
  by rewrite H.
Qed.

Lemma inv_update (s s' : State) :
  inv s ->
  models s' = models s ->
  num_models s' = num_models s ->
  length (curr_model_run_configs s') = length (curr_model_run_configs s) ->
  length (curr_results s') = length (curr_results s) ->
  length (curr_generators s') = length (curr_generators s) ->
  length (heap s) <= length (heap s') ->
  (forall ev, In ev (trace s) -> In ev (trace s')) ->
  (forall i g, curr_generators s' !! i = Some (Some g) ->
     curr_generators s !! i = Some (Some g) \/
     (g < length (heap s') /\ exists d, In (EvCreate g i d) (trace s'))) ->
  (forall g i ms, In (EvSend g i ms) (trace s') ->
     In (EvSend g i ms) (trace s) \/ exists d, In (EvCreate g i d) (trace s')) ->
  feedback_before_advance (trace s') = true ->
  (forall i buf, curr_results s' !! i = Some buf -> buf = pending i (trace s')) ->
  forwards_pending (trace s') ->
  inv s'.
Proof.
  intros [] Hm Hn Hc Hr Hg Hh Htr Hgen Hsend Hfba Hpend Hfwd.
  split; try congruence; try assumption.
  - intros i g Hi. destruct (Hgen i g Hi) as [Hold|[? _]]; [|done].
    specialize (inv_heap0 _ _ Hold). lia.
  - intros i g Hi. destruct (Hgen i g Hi) as [Hold|[_ ?]]; [|done].
    destruct (inv_owned0 _ _ Hold) as [d Hd]. eauto.
  - intros g i ms Hi. destruct (Hsend g i ms Hi) as [Hold|?]; [|done].
    destruct (inv_sends0 _ _ _ Hold) as [d Hd]. eauto.
Qed.

Lemma inv_feedback measurements (s : State) :
  inv s ->
  inv (set_curr_results ((fun buf => buf ++ measurements) <$> curr_results s)
         (log (EvFeedback measurements) s)).
Proof.
  intros Hinv. use_inv Hinv. apply (inv_update s); simpl; auto.
  - by rewrite length_fmap.
  - intros g i ms [Heq|Hin]; [discriminate|auto].
  - intros i buf Hi. rewrite list_lookup_fmap in Hi.
    destruct (curr_results s !! i) as [old|] eqn:Hold; [|discriminate].
    injection Hi as <-. f_equal. auto.
Qed.

Lemma inv_next g (s : State) :
  inv s ->
  advance_ok (head (trace s)) (EvNext g) = true ->
  inv (log (EvNext g) s).
Proof.
  intros Hinv Hok. use_inv Hinv. apply (inv_update s); simpl; auto.
  - intros g' i ms [Heq|Hin]; [discriminate|auto].
  - change (advance_ok (head (trace s)) (EvNext g) &&
            feedback_before_advance (trace s) = true).
    rewrite Hok. apply (inv_fba _ Hinv).
Qed.

(** *** Forwarding the buffered feedback *)

Definition sent (index g : nat) (buf : list Measurement) (obj : @MRCG Measurement)
    (s : State) : State :=
  set_curr_results (<[index := []]> (curr_results s))
    (log (EvSend g index buf)
       (set_heap (<[g := mrcg_set_last_results buf obj]> (heap s)) s)).

Lemma send_results_spec index g (s : State) :
  inv s ->
  curr_generators s !! index = Some (Some g) ->
  exists buf obj,
    curr_results s !! index = Some buf /\
    heap s !! g = Some obj /\
    _send_results_to_generator index s = (Ok tt, sent index g buf obj s).
Proof.
  intros Hinv Hg.
  assert (index < length (curr_results s)) as Hlt.
  { rewrite (inv_res _ Hinv), <- (inv_gens _ Hinv). by eapply lookup_lt_Some. }
  destruct (lookup_lt_is_Some_2 _ _ Hlt) as [buf Hbuf].
  destruct (lookup_lt_is_Some_2 _ _ (inv_heap _ Hinv _ _ Hg)) as [obj Hobj].
  exists buf, obj. split; [done|]. split; [done|].
  unfold _send_results_to_generator, bindM, get, lift, modify, py_getitem, py_setitem.
  rewrite Hg, Hbuf, Hobj. simpl.
  destruct (decide (index < length (curr_results s))); [reflexivity|lia].
Qed.

Lemma inv_sent index g buf obj (s : State) :
  inv s ->
  curr_generators s !! index = Some (Some g) ->
  curr_results s !! index = Some buf ->
  inv (sent index g buf obj s).
Proof.
  intros Hinv Hg Hbuf. use_inv Hinv. apply (inv_update s); simpl; auto.
  - by rewrite length_insert.
  - by rewrite length_insert.
  - intros g' i ms [Heq|Hin]; [|auto].
    inversion Heq; subst. right.
    destruct (inv_owned _ Hinv _ _ Hg) as [d Hd]. eauto.
  - intros i b Hi. destruct (decide (index = i)) as [->|Hne].
    + rewrite list_lookup_insert_eq in Hi by (by eapply lookup_lt_Some).
      by injection Hi as <-.
    + rewrite list_lookup_insert_ne in Hi by done. auto.
Qed.

Lemma settled_sent index g buf obj (s : State) :
  settled (S index) s -> settled index (sent index g buf obj s).
Proof.
  intros Hset j b Hj Hb. simpl in Hb.
  destruct (decide (index = j)) as [->|Hne].
  - destruct (decide (j < length (curr_results s))).
    + rewrite list_lookup_insert_eq in Hb by done. by injection Hb as <-.
    + rewrite list_insert_ge in Hb by lia. apply lookup_lt_Some in Hb. lia.
  - rewrite list_lookup_insert_ne in Hb by done. apply (Hset j); [lia|done].
Qed.

(** *** Assembling a RunConfig *)

Definition mk (env : Env) (l : list (option ModelRunConfig)) : @RunConfig ModelRunConfig :=
  {| rc_triton_env := env; rc_model_run_configs := l |}.

Lemma collect_model_run_configs_spec (cur : list (option ModelRunConfig)) n :
  forall i rc, i + n <= length cur ->
  add_model_run_configs cur i n rc =
  Ok (mk (rc_triton_env rc) (rc_model_run_configs rc ++ take n (drop i cur))).
Proof.
  induction n as [|n IH]; intros i rc Hlen; simpl.
  - rewrite app_nil_r. by destruct rc.
  - unfold py_getitem.
    destruct (cur !! i) as [c|] eqn:Hc.
    2: { apply lookup_ge_None in Hc. lia. }
    rewrite IH by lia. simpl.
    rewrite (drop_S _ _ _ Hc). simpl. by rewrite <- app_assoc.
Qed.

Lemma make_run_config_spec (s : State) :
  length (curr_model_run_configs s) = length (models s) ->
  _make_run_config s = (Ok (mk (triton_env s) (curr_model_run_configs s)), s).
Proof.
  intros Hlen. unfold _make_run_config, bindM, get, lift.
  rewrite collect_model_run_configs_spec by (simpl; lia). simpl.
  rewrite drop_0, <- Hlen. by rewrite firstn_all.
Qed.

(** *** The nested traversal *)

Definition cfgs (d : bool) (model : Model) : list ModelRunConfig :=
  mrcg_get_configs default_config all_configs
    ({| mrcg_model := model; mrcg_default_only := d; mrcg_last_results := [] |}
       : @MRCG Measurement).

Definition expected (env : Env) (pre : list (option ModelRunConfig))
    (lists : list (list ModelRunConfig)) : list (@RunConfig ModelRunConfig) :=
  map (fun combo => mk env (pre ++ map Some combo)) (product lists).

Definition subset_post (index : nat) (d : bool) (s : State)
    (o : @Outcome ModelRunConfig Measurement) : Prop :=
  failure o = None /\ inv (final o) /\ frame index s (final o) /\
  (settled index s -> settled index (final o)) /\
  produced o =
    expected (triton_env s) (take index (curr_model_run_configs s))
      (map (cfgs d) (drop index (models s))).

Definition loop_post (index mrcg : nat) (d : bool) (env : Env)
    (pre : list (option ModelRunConfig)) (ms : list Model)
    (configs : list ModelRunConfig) (s : State)
    (o : @Outcome ModelRunConfig Measurement) : Prop :=
  failure o = None /\ inv (final o) /\ frame index s (final o) /\
  curr_generators (final o) !! index = Some (Some mrcg) /\
  (settled index s -> settled index (final o)) /\
  produced o =
    flat_map (fun c => expected env (pre ++ [Some c]) (map (cfgs d) (drop (S index) ms)))
      configs.

Lemma loop_spec feedback index mrcg d deeper env pre ms :
  (forall s k, inv s -> models s = ms -> S index < length ms ->
     subset_post (S index) d s (consume feedback k (deeper s))) ->
  forall configs (s : State) k,
    inv s ->
    models s = ms -> triton_env s = env ->
    take index (curr_model_run_configs s) = pre ->
    index < length ms ->
    curr_generators s !! index = Some (Some mrcg) ->
    advance_ok (head (trace s)) (EvNext mrcg) = true ->
    loop_post index mrcg d env pre ms configs s
      (consume feedback k (for_model_run_configs index mrcg deeper configs s)).
Proof.
  intros Hdeeper.
  induction configs as [|c configs IH]; intros s k Hinv Hms Henv Hpre Hlt Hgen Hok.
  - simpl. split; [done|]. split; [by apply inv_next|].
    split; [by split|]. split; [done|]. by split.
  - cbn [for_model_run_configs].
    pose proof (inv_next _ _ Hinv Hok) as Hinv0.
    set (s0 := log (EvNext mrcg) s) in *.
    unfold call at 1. unfold lift at 1, py_setitem at 1.
    assert (index < length (curr_model_run_configs s0)) as Hlt0.
    { simpl. rewrite (inv_cur _ Hinv). by rewrite Hms. }
    destruct (decide (index < length (curr_model_run_configs s0))) as [_|]; [|done].
    set (s1 := set_curr_model_run_configs _ s0).
    assert (inv s1) as Hinv1.
    { use_inv Hinv0. apply (inv_update s0); simpl; auto.
      by rewrite length_insert. }
    assert (frame index s s1) as Hfr1.
    { split; simpl; auto. by rewrite take_insert_ge. }
    assert (take (S index) (curr_model_run_configs s1) = pre ++ [Some c]) as Hpre1.
    { simpl. rewrite (take_S_r _ _ (Some c)).
      - rewrite take_insert_ge by lia. by rewrite Hpre.
      - by apply list_lookup_insert_eq. }
    rewrite consume_yield_from.
    match goal with |- context [consume feedback k ?g] => set (g1 := g) end.
    assert (failure (consume feedback k g1) = None /\
            inv (final (consume feedback k g1)) /\
            frame (S index) s1 (final (consume feedback k g1)) /\
            (settled (S index) s1 -> settled (S index) (final (consume feedback k g1))) /\
            produced (consume feedback k g1) =
              expected env (pre ++ [Some c]) (map (cfgs d) (drop (S index) ms)))
      as (Hf1 & Hinv3 & Hfr3 & Hset3 & Hprod1).
    { subst g1.
      destruct (Z.eqb_spec (Z.of_nat index) (Z.of_nat (length (models s1)) - 1)) as [Hleaf|Hdeep].
      - (* the deepest level: assemble and produce *)
        assert (length ms = S index) as Hlast.
        { simpl in Hleaf. rewrite Hms in Hleaf. lia. }
        unfold call. rewrite make_run_config_spec
          by (simpl; rewrite length_insert; apply (inv_cur _ Hinv)).
        cbn [consume].
        rewrite set_last_results_spec
          by (rewrite (inv_num _ Hinv1), (inv_res _ Hinv1); done).
        cbn [consume produced final failure].
        split; [done|]. split; [by apply inv_feedback|]. split; [by split|].
        split.
        { intros _ j buf Hj Hbuf. simpl in Hbuf. apply lookup_lt_Some in Hbuf.
          rewrite length_fmap, (inv_res _ Hinv), Hms in Hbuf. lia. }
        rewrite drop_ge by lia. unfold expected. simpl. rewrite app_nil_r.
        f_equal. unfold mk. f_equal; [done|].
        rewrite <- Hpre1. simpl. symmetry. apply firstn_all2.
        rewrite length_insert, (inv_cur _ Hinv), Hms. lia.
      - (* a shallower level: recurse *)
        assert (S index < length ms) as Hdeep'.
        { simpl in Hdeep. rewrite Hms in Hdeep. lia. }
        destruct (Hdeeper s1 k Hinv1 Hms Hdeep') as (Hf & Hi & Hfr & Hst & Hp).
        split; [done|]. split; [done|]. split; [done|]. split; [done|].
        rewrite Hp, Hpre1. simpl. by rewrite Henv, Hms. }
    unfold then_outcome. rewrite Hf1. cbn beta iota.
    set (o1 := consume feedback k g1) in *.
    set (s3 := final o1) in *.
    assert (curr_generators s3 !! index = Some (Some mrcg)) as Hgen3.
    { rewrite (take_lookup_eq _ _ index (S index) (Nat.lt_succ_diag_r _) (fr_gens _ _ _ Hfr3)).
      exact Hgen. }
    destruct (send_results_spec index mrcg s3 Hinv3 Hgen3) as (buf & obj & Hbuf & Hobj & Hsend).
    assert (forall K : unit -> State -> GenT,
              call (_send_results_to_generator index) s3 K =
              K tt (sent index mrcg buf obj s3)) as Hcall.
    { intros K. unfold call. by rewrite Hsend. }
    rewrite !Hcall.
    pose proof (inv_sent index mrcg buf obj s3 Hinv3 Hgen3 Hbuf) as Hinv4.
    set (s4 := sent index mrcg buf obj s3) in *.
    assert (frame index s s4) as Hfr4.
    { eapply frame_trans; [exact Hfr1|].
      eapply frame_trans; [eapply (frame_weaken index (S index)); [lia|exact Hfr3]|].
      by split. }
    destruct (IH s4 (k + length (produced o1)) Hinv4)
      as (Hf5 & Hinv5 & Hfr5 & Hgen5 & Hset5 & Hprod5).
    + rewrite (fr_models _ _ _ Hfr4). exact Hms.
    + rewrite (fr_env _ _ _ Hfr4). exact Henv.
    + rewrite (fr_cur _ _ _ Hfr4). exact Hpre.
    + exact Hlt.
    + exact Hgen3.
    + unfold s4, sent; simpl. by apply bool_decide_eq_true.
    + unfold loop_post. cbn zeta. cbn [produced final failure].
      split; [done|]. split; [done|].
      split; [by eapply frame_trans|]. split; [done|].
      split.
      { intros Hset. apply Hset5. apply settled_sent. apply Hset3.
        intros j b Hj Hb. apply (Hset j); [lia|done]. }
      cbn [flat_map]. by rewrite Hprod5, Hprod1.
Qed.

Lemma expected_cons env pre (l : list ModelRunConfig) ls :
  expected env pre (l :: ls) =
  flat_map (fun c => expected env (pre ++ [Some c]) ls) l.
Proof.
  unfold expected. simpl.
  induction l as [|c l IH]; simpl; [done|].
  rewrite map_app, IH. f_equal.
  rewrite map_map. apply map_ext. intros combo. simpl.
  by rewrite <- app_assoc.
Qed.

Lemma generate_subset_spec feedback fuel :
  forall index d (s : State) k,
    inv s ->
    index + fuel = length (models s) ->
    0 < fuel ->
    subset_post index d s
      (consume feedback k (_generate_subset default_config all_configs fuel index d s)).
Proof.
  induction fuel as [|fuel IH]; intros index d s k Hinv Hsum Hpos; [lia|].
  cbn [_generate_subset].
  assert (index < length (models s)) as Hlt by lia.
  destruct (lookup_lt_is_Some_2 _ _ Hlt) as [model Hmodel].
  unfold call at 1, lift at 1, py_getitem at 1. rewrite Hmodel.
  unfold call at 1, new_mrcg at 1, bindM, get, modify, ret.
  cbn beta iota zeta.
  set (g := length (heap s)).
  set (s' := log (EvCreate g index d) _).
  unfold call at 1, lift at 1, py_setitem at 1.
  assert (index < length (curr_generators s')) as Hlt'.
  { simpl. by rewrite (inv_gens _ Hinv). }
  destruct (decide (index < length (curr_generators s'))) as [_|]; [|done].
  set (s1 := set_curr_generators _ s').
  assert (inv s1) as Hinv1.
  { use_inv Hinv. apply (inv_update s); simpl; auto.
    - by rewrite length_insert.
    - rewrite length_app. lia.
    - intros i g' Hi. destruct (decide (i = index)) as [->|Hne].
      + rewrite list_lookup_insert_eq in Hi by (by rewrite (inv_gens _ Hinv)).
        inversion Hi; subst g'. right. split.
        * rewrite length_app. simpl. unfold g. lia.
        * eauto.
      + rewrite list_lookup_insert_ne in Hi by done. by left.
    - intros g' i ms [Heq|Hin]; [discriminate|auto]. }
  assert (frame index s s1) as Hfr1.
  { split; simpl; auto. by rewrite take_insert_ge. }
  destruct (loop_spec feedback index g d
              (_generate_subset default_config all_configs fuel (index + 1) d)
              (triton_env s) (take index (curr_model_run_configs s)) (models s))
    with (configs := cfgs d model) (s := s1) (k := k)
    as (Hf & Hinv2 & Hfr2 & _ & Hset2 & Hprod); auto.
  - intros s2 k2 Hinv2 Hms2 Hdeep. rewrite Nat.add_1_r.
    apply IH; [done| rewrite Hms2; lia | lia].
  - simpl. apply list_lookup_insert_eq. by rewrite (inv_gens _ Hinv).
  - simpl. by apply bool_decide_eq_true.
  - split; [done|]. split; [done|]. split; [by eapply frame_trans|].
    split; [exact Hset2|].
    unfold cfgs in Hprod. rewrite Hprod.
    rewrite (drop_S _ _ _ Hmodel). simpl. by rewrite expected_cons.
Qed.

(** *** The two phases *)

Lemma determine_triton_server_env_nonempty models env :
  determine_triton_server_env models = Ok env -> 0 < length models.
Proof.
  destruct models; [discriminate|]. simpl. lia.
Qed.

Lemma init_spec models (s : State) :
  init models = Ok s ->
  inv s /\ Composite.models s = models /\ 0 < length models /\
  determine_triton_server_env models = Ok (triton_env s) /\
  trace s = [] /\ curr_results s = replicate (length models) [].
Proof.
  unfold init. destruct (determine_triton_server_env models) as [env|e] eqn:Henv;
    [|discriminate].
  intros [= <-]. simpl.
  split; [|pose proof (determine_triton_server_env_nonempty _ _ Henv); done].
  split; simpl; rewrite ?length_replicate; try done.
  - intros i g Hi. apply lookup_replicate in Hi. by destruct Hi.
  - intros i g Hi. apply lookup_replicate in Hi. by destruct Hi.
  - intros i buf Hi. apply lookup_replicate in Hi. by destruct Hi.
Qed.

Lemma product_singletons {A B} (f : A -> B) (l : list A) :
  product (map (fun x => [f x]) l) = [map f l].
Proof.
  induction l as [|x l IH]; simpl; [done|]. by rewrite IH.
Qed.

Lemma length_product {A} (ls : list (list A)) :
  length (product ls) = foldr (fun l n => length l * n) 1 ls.
Proof.
  induction ls as [|l ls IH]; simpl; [done|].
  rewrite <- IH. clear IH.
  induction l as [|x l IHl]; simpl; [done|].
  by rewrite length_app, length_map, IHl.
Qed.

Definition all_default (env : Env) (models : list Model) : @RunConfig ModelRunConfig :=
  mk env (map (fun m => Some (default_config m)) models).

Lemma get_configs_spec feedback models (s : State) :
  init models = Ok s ->
  let o := pull_all default_config all_configs feedback s in
  failure o = None /\ inv (final o) /\ settled 0 (final o) /\
  Composite.models (final o) = models /\
  produced o =
    all_default (triton_env s) models ::
    map (fun combo => mk (triton_env s) (map Some combo)) (product (map all_configs models)).
Proof.
  intros Hinit. unfold pull_all.
  destruct (init_spec _ _ Hinit) as (Hinv & Hms & Hpos & _ & _ & Hres).
  unfold get_configs, _get_next_config.
  rewrite consume_yield_from.
  destruct (generate_subset_spec feedback (length (Composite.models s)) 0 true s 0 Hinv)
    as (Hf1 & Hinv1 & Hfr1 & Hset1 & Hp1); [lia | rewrite Hms; lia |].
  unfold then_outcome. rewrite Hf1. cbn beta iota zeta.
  set (o1 := consume feedback 0 _) in *.
  set (s2 := set_default_returned true (final o1)).
  assert (inv s2) as Hinv2.
  { use_inv Hinv1. apply (inv_update (final o1)); simpl; auto. }
  destruct (generate_subset_spec feedback (length (Composite.models s2)) 0 false s2
              (0 + length (produced o1)) Hinv2)
    as (Hf2 & Hinv3 & Hfr3 & Hset3 & Hp2).
  { lia. }
  { simpl. rewrite (fr_models _ _ _ Hfr1), Hms. lia. }
  cbn [produced final failure].
  split; [done|]. split; [done|].
  split.
  { assert (settled 0 s) as Hset0.
    { intros j' buf' _ Hbuf'. rewrite Hres in Hbuf'.
      apply lookup_replicate in Hbuf'. by destruct Hbuf'. }
    apply Hset3. exact (Hset1 Hset0). }
  split; [by rewrite (fr_models _ _ _ Hfr3); simpl; rewrite (fr_models _ _ _ Hfr1)|].
  rewrite Hp2, Hp1. simpl. rewrite !drop_0.
  rewrite (fr_models _ _ _ Hfr1), (fr_env _ _ _ Hfr1), Hms.
  unfold expected, cfgs, mrcg_get_configs. simpl.
  rewrite (product_singletons default_config). simpl.
  by rewrite map_map.
Qed.

(** C3: the first produced RunConfig is the all-default combination, and
    the sequence has one value for the default-only phase plus one for every
    element of the product of the per-model configuration lists. *)
Theorem first_is_default_and_count feedback models (s : State) :
  init models = Ok s ->
  failure (pull_all default_config all_configs feedback s) = None /\
  head (produced (pull_all default_config all_configs feedback s)) =
    Some (all_default (triton_env s) models) /\
  length (produced (pull_all default_config all_configs feedback s)) =
    1 + foldr (fun m n => length (all_configs m) * n) 1 models.
Proof.
  intros Hinit.
  destruct (get_configs_spec feedback models s Hinit) as (Hf & _ & _ & _ & Hp).
  split; [done|]. rewrite Hp. split; [done|].
  simpl. rewrite length_map, length_product. f_equal.
  induction models as [|m ms IH] in |- *; simpl; [done|]. by rewrite IH.
Qed.

(** C1, as amended: the consumer's feedback is appended to the buffer
    of every depth; forwarding hands the whole buffer of a depth to the
    sub-enumerator registered for that depth and leaves the buffer empty; and
    in every run each request for a sub-enumerator's next item comes directly
    after that sub-enumerator was created or was handed its depth's buffer,
    every forwarding goes to a sub-enumerator created for that depth and
    carries exactly the feedback supplied since the previous forwarding at
    that depth, and at the end no feedback is left waiting at any depth. *)
Theorem feedback_before_every_advance feedback models (s : State) :
  init models = Ok s ->
  (forall measurements (st : State),
     num_models st = length (curr_results st) ->
     exists st',
       set_last_results measurements st = (Ok tt, st') /\
       curr_results st' = (fun buf => buf ++ measurements) <$> curr_results st) /\
  (forall index g (st : State),
     inv st -> curr_generators st !! index = Some (Some g) ->
     exists buf obj st',
       curr_results st !! index = Some buf /\ heap st !! g = Some obj /\
       _send_results_to_generator index st = (Ok tt, st') /\
       heap st' !! g = Some (mrcg_set_last_results buf obj) /\
       curr_results st' !! index = Some [] /\
       trace st' = EvSend g index buf :: trace st) /\
  failure (pull_all default_config all_configs feedback s) = None /\
  feedback_before_advance
    (trace (final (pull_all default_config all_configs feedback s))) = true /\
  (forall g index results,
     In (EvSend g index results)
        (trace (final (pull_all default_config all_configs feedback s))) ->
     exists d,
       In (EvCreate g index d)
          (trace (final (pull_all default_config all_configs feedback s)))) /\
  forwards_pending (trace (final (pull_all default_config all_configs feedback s))) /\
  (forall index, index < length models ->
     pending index (trace (final (pull_all default_config all_configs feedback s))) = []).
Proof.
  intros Hinit.
  destruct (get_configs_spec feedback models s Hinit) as (Hf & Hinv & Hset & Hms & _).
  assert (length (curr_results (final (pull_all default_config all_configs feedback s))) =
          length models) as Hlen.
  { by rewrite (inv_res _ Hinv), Hms. }
  split; [|split; [|split; [done|split; [|split; [|split]]]]].
  - intros measurements st Hn. eexists. split; [by apply set_last_results_spec|done].
  - intros index g st Hst Hg.
    destruct (send_results_spec index g st Hst Hg) as (buf & obj & Hbuf & Hobj & Hsend).
    exists buf, obj, (sent index g buf obj st).
    split; [done|]. split; [done|]. split; [done|]. simpl.
    split; [|split; [|done]].
    + apply list_lookup_insert_eq. by eapply lookup_lt_Some.
    + apply list_lookup_insert_eq. by eapply lookup_lt_Some.
  - apply (inv_fba _ Hinv).
  - apply (inv_sends _ Hinv).
  - apply (inv_forwards _ Hinv).
  - intros index Hindex.
    destruct (lookup_lt_is_Some_2
                (curr_results (final (pull_all default_config all_configs feedback s)))
                index) as [buf Hbuf]; [lia|].
    rewrite <- (inv_pending _ Hinv _ _ Hbuf).
    apply (Hset index buf); [lia|done].
Qed.

End Facts.

Import Scenario.

Lemma composite_start_init : init [model_a; model_b] = Ok composite_start.
Proof. reflexivity. Qed.

Lemma first_is_default_and_count_witness :
  init [model_a; model_b] = Ok composite_start /\
  failure composite_run = None /\
  head (produced composite_run) =
    Some (all_default Scenario.default_config env_a [model_a; model_b]) /\
  length (produced composite_run) = 1 + 2 * (2 * 1).
Proof.
  split; [reflexivity|].
  apply (first_is_default_and_count Scenario.default_config Scenario.all_configs
           Scenario.feedback [model_a; model_b] composite_start).
  reflexivity.
Defined.

Lemma feedback_before_every_advance_witness :
  init [model_a; model_b] = Ok composite_start /\
  failure composite_run = None /\
  feedback_before_advance (trace (final composite_run)) = true /\
  forwards_pending (trace (final composite_run)).
Proof.
  split; [reflexivity|].
  destruct (feedback_before_every_advance Scenario.default_config Scenario.all_configs
              Scenario.feedback [model_a; model_b] composite_start)
    as (_ & _ & Hf & Hfba & _ & Hfwd & _); [reflexivity|].
  split; [exact Hf|]. split; [exact Hfba | exact Hfwd].
Defined.

(** The events of scenario B in the order they happen: the feedback for
    each produced value is forwarded at depth 1 at once and at depth 0, with
    everything else pending there, when depth 0 is about to advance. *)
Example scenario_b_trace :
  rev (trace (final composite_run)) =
  [ EvCreate 0 0 true; EvNext 0; EvCreate 1 1 true; EvNext 1;
    EvFeedback [0]; EvSend 1 1 [0]; EvNext 1; EvSend 0 0 [0]; EvNext 0;
    EvCreate 2 0 false; EvNext 2; EvCreate 3 1 false; EvNext 3;
    EvFeedback [1]; EvSend 3 1 [1]; EvNext 3;
    EvFeedback [2]; EvSend 3 1 [2]; EvNext 3;
    EvSend 2 0 [1; 2]; EvNext 2; EvCreate 4 1 false; EvNext 4;
    EvFeedback [3]; EvSend 4 1 [3]; EvNext 4;
    EvFeedback [4]; EvSend 4 1 [4]; EvNext 4;
    EvSend 2 0 [3; 4]; EvNext 2 ].
Proof. reflexivity. Qed.

(** Scenario B: the full phase visits the four combinations depth first. *)
Example scenario_b_order :
  map rc_model_run_configs (produced composite_run) =
  [ [Some 100; Some 200];
    [Some 10; Some 20]; [Some 10; Some 21]; [Some 11; Some 20]; [Some 11; Some 21] ].
Proof. reflexivity. Qed.

(** C1, as stated, fails: the feedback for the first produced value (made
    at depth 1) is also handed to the sub-enumerator of depth 0. *)
Lemma feedback_reaches_other_depths :
  ~ feedback_reaches_only_depth 1 (trace (final composite_run)).
Proof.
  intros H. specialize (H 0 0 [0]).
  assert (0 = 1) as Habs; [|discriminate].
  apply H; [|discriminate].
  vm_compute. tauto.
Qed.

End CompositeFacts.

(** * Properties of the hill-climbing driver *)

Module HillClimbFacts.

Import HillClimb.

Section Facts.

Context {Measurement Throughput ModelConfig PerfAnalyzerConfig
         NeighborhoodConfig VariantNameManager : Type}.
Variable get_non_gpu_metric_value : Measurement -> string -> Throughput.
Variable get_min_indexes : list nat.
Variable get_radius : Z.
Variable get_step_magnitude : Z.
Variable get_neighborhood_config : option Z -> NeighborhoodConfig.
Variable get_values_for_coordinate : option Coordinate -> Res (list (gmap string Z)).

Abbreviation Nbhd := (@Neighborhood NeighborhoodConfig).

Variable enough_coordinates_initialized : Nbhd -> CoordinateData Throughput -> bool.
Variable calculate_new_coordinate : Nbhd -> CoordinateData Throughput -> Z -> Coordinate.
Variable pick_coordinate_to_initialize : Nbhd -> CoordinateData Throughput -> option Coordinate.
Variable get_nearest_unvisited_neighbor :
  Nbhd -> CoordinateData Throughput -> option Coordinate -> option Coordinate.
Variable make_model_config :
  ParamCombo -> Model -> VariantNameManager -> ModelConfig * VariantNameManager.
Variable get_field_name : ModelConfig -> string.
Variable PerfAnalyzerConfig_new : PerfAnalyzerConfig.
Variable update_config : gmap string PyVal -> PerfAnalyzerConfig -> PerfAnalyzerConfig.
Variable VariantNameManager_new : VariantNameManager.

Abbreviation State :=
  (@UndirectedRunConfigGenerator Throughput NeighborhoodConfig VariantNameManager).

Abbreviation feed := (@set_last_results Measurement Throughput NeighborhoodConfig
                        VariantNameManager get_non_gpu_metric_value).
Abbreviation step :=
  (@_step Throughput NeighborhoodConfig VariantNameManager
     get_radius get_step_magnitude get_neighborhood_config
     enough_coordinates_initialized calculate_new_coordinate
     pick_coordinate_to_initialize get_nearest_unvisited_neighbor).
Abbreviation next_run_config :=
  (@_get_next_run_config Throughput ModelConfig PerfAnalyzerConfig NeighborhoodConfig
     VariantNameManager get_values_for_coordinate make_model_config get_field_name
     PerfAnalyzerConfig_new update_config).
Abbreviation next :=
  (@pull Throughput ModelConfig PerfAnalyzerConfig NeighborhoodConfig VariantNameManager
     get_radius get_step_magnitude get_neighborhood_config get_values_for_coordinate
     enough_coordinates_initialized calculate_new_coordinate
     pick_coordinate_to_initialize get_nearest_unvisited_neighbor
     make_model_config get_field_name PerfAnalyzerConfig_new update_config).
Abbreviation start :=
  (@init Throughput NeighborhoodConfig VariantNameManager get_min_indexes
     get_neighborhood_config VariantNameManager_new).

(** *** What the feedback call does, case by case *)

Definition recorded_throughput (measurements : option (list (option Measurement)))
  : option Throughput :=
  match measurements with
  | Some [Some measurement] => Some (get_non_gpu_metric_value measurement "perf_throughput")
  | _ => None
  end.

Definition feed_result (measurements : option (list (option Measurement))) : Res unit :=
  match measurements with
  | None => Ok tt
  | Some [] => Err IndexError
  | Some (None :: _) => Ok tt
  | Some [Some _] => Ok tt
  | Some (Some _ :: _ :: _) => Err AssertionError
  end.

Lemma feed_spec measurements (s : State) c :
  coordinate_to_measure s = Some c ->
  feed measurements s =
  (feed_result measurements,
   set_coordinate_data
     (match recorded_throughput measurements with
      | Some t => set_throughput c t (increment_visit_count c (coordinate_data s))
      | None => increment_visit_count c (coordinate_data s)
      end) s).
Proof.
  intros Hc. unfold set_last_results, _get_last_results, bindM, get, modify, ret, lift, the_coordinate.
  rewrite Hc. simpl.
  destruct measurements as [[|[m|] [|m' rest]]|]; simpl; rewrite ?Hc; try reflexivity.
  unfold ret. simpl. rewrite Hc. reflexivity.
Qed.

Lemma get_visit_count_increment (cd : CoordinateData Throughput) c c' :
  get_visit_count (increment_visit_count c cd) c' =
  if decide (c = c') then get_visit_count cd c + 1 else get_visit_count cd c'.
Proof.
  unfold get_visit_count at 1. simpl. rewrite lookup_insert.
  by destruct (decide (c = c')).
Qed.

Lemma get_visit_count_set_throughput (cd : CoordinateData Throughput) c t c' :
  get_visit_count (set_throughput c t cd) c' = get_visit_count cd c'.
Proof. reflexivity. Qed.

Lemma get_throughput_increment (cd : CoordinateData Throughput) c c' :
  get_throughput (increment_visit_count c cd) c' = get_throughput cd c'.
Proof. reflexivity. Qed.

Lemma get_throughput_set (cd : CoordinateData Throughput) c t c' :
  get_throughput (set_throughput c t cd) c' =
  if decide (c = c') then Some t else get_throughput cd c'.
Proof.
  unfold get_throughput. simpl. rewrite lookup_insert. by destruct (decide (c = c')).
Qed.

(** C5: every feedback call adds exactly one to the visit count of the
    coordinate being measured, whatever the measurements are and whether or
    not the call goes on to raise; no other count changes. *)
Theorem visit_count_incremented measurements (s : State) c :
  coordinate_to_measure s = Some c ->
  get_visit_count (coordinate_data (snd (feed measurements s))) c =
    get_visit_count (coordinate_data s) c + 1 /\
  (forall c', c' <> c ->
     get_visit_count (coordinate_data (snd (feed measurements s))) c' =
     get_visit_count (coordinate_data s) c').
Proof.
  intros Hc. rewrite (feed_spec _ _ _ Hc). simpl.
  split; [|intros c' Hne];
    destruct (recorded_throughput measurements);
    rewrite ?get_visit_count_set_throughput, get_visit_count_increment;
    destruct (decide _); congruence.
Qed.

(** C10: a list that starts with a measurement must have exactly one item;
    a longer one fails the assertion and no throughput is stored, while
    [None] and a list that starts with [None] pass without storing
    anything. *)
Theorem one_measurement_per_feedback measurements (s : State) c :
  coordinate_to_measure s = Some c ->
  (forall m rest, measurements = Some (Some m :: rest) ->
     (rest = [] ->
        fst (feed measurements s) = Ok tt /\
        get_throughput (coordinate_data (snd (feed measurements s))) c =
          Some (get_non_gpu_metric_value m "perf_throughput")) /\
     (rest <> [] ->
        fst (feed measurements s) = Err AssertionError /\
        throughputs (coordinate_data (snd (feed measurements s))) =
          throughputs (coordinate_data s))) /\
  (measurements = None \/ (exists rest, measurements = Some (None :: rest)) ->
     fst (feed measurements s) = Ok tt /\
     throughputs (coordinate_data (snd (feed measurements s))) =
       throughputs (coordinate_data s)).
Proof.
  intros Hc. rewrite (feed_spec _ _ _ Hc). simpl. split.
  - intros m rest ->. split.
    + intros ->. simpl. split; [done|].
      rewrite get_throughput_set. by destruct (decide _).
    + intros Hrest. destruct rest; [done|]. by simpl.
  - intros [->|[rest ->]]; by simpl.
Qed.

(** *** Fields a method leaves alone *)

Definition keeps {A B} (f : State -> B) (m : M State A) : Prop :=
  forall s, f (snd (m s)) = f s.

Lemma keeps_ret {A B} (f : State -> B) (a : A) : keeps f (ret a).
Proof. by intros s. Qed.

Lemma keeps_raise {A B} (f : State -> B) e : keeps f (raise e : M State A).
Proof. by intros s. Qed.

Lemma keeps_get {B} (f : State -> B) : keeps f get.
Proof. by intros s. Qed.

Lemma keeps_lift {A B} (f : State -> B) (r : Res A) : keeps f (lift r).
Proof. by intros s. Qed.

Lemma keeps_modify {B} (f : State -> B) g :
  (forall s, f (g s) = f s) -> keeps f (modify g).
Proof. intros H s. apply H. Qed.

Lemma keeps_bind {A A' B} (f : State -> B) (c : M State A) (k : A -> M State A') :
  keeps f c -> (forall a, keeps f (k a)) -> keeps f (bindM c k).
Proof.
  intros Hc Hk s. unfold bindM. specialize (Hc s).
  destruct (c s) as [[a|e] s']; simpl in *; [|done].
  by rewrite Hk.
Qed.

Ltac keeps_tac :=
  repeat match goal with
    | |- keeps _ (ret _) => apply keeps_ret
    | |- keeps _ (raise _) => apply keeps_raise
    | |- keeps _ get => apply keeps_get
    | |- keeps _ (lift _) => apply keeps_lift
    | |- keeps _ (modify _) => apply keeps_modify; intros ?; auto
    | |- keeps _ (bindM _ _) => apply keeps_bind; [|intros ?]
    | |- keeps _ (match ?x with _ => _ end) => destruct x
    end.

(** The stepping logic only changes the coordinate to measure, the center,
    the neighborhood and the done flag. *)
Lemma step_keeps {B} (f : State -> B) :
  (forall v s, f (set_coordinate_to_measure v s) = f s) ->
  (forall v s, f (set_current_coordinate v s) = f s) ->
  (forall v s, f (set_neighborhood v s) = f s) ->
  (forall v s, f (set_done v s) = f s) ->
  keeps f step.
Proof.
  intros H1 H2 H3 H4.
  unfold _step, _get_last_results, the_coordinate, _handle_invalid_last_results,
    _take_step, _pick_coordinate_to_initialize, _determine_if_done,
    _recreate_neighborhood.
  keeps_tac.
Qed.

(** Building a RunConfig only changes the variant-name manager. *)
Lemma next_model_run_config_keeps {B} (f : State -> B) i :
  (forall v s, f (set_variant_name_manager v s) = f s) ->
  keeps f (_get_next_model_run_config get_values_for_coordinate make_model_config
             get_field_name PerfAnalyzerConfig_new update_config i).
Proof.
  intros H1.
  unfold _get_next_model_run_config, _get_next_model_config,
    _get_next_perf_analyzer_config, _get_coordinate_values.
  keeps_tac.
Qed.

Lemma add_model_run_configs_keeps {B} (f : State -> B) n :
  (forall v s, f (set_variant_name_manager v s) = f s) ->
  forall i rc,
    keeps f (add_model_run_configs get_values_for_coordinate make_model_config
               get_field_name PerfAnalyzerConfig_new update_config i n rc).
Proof.
  intros H1. induction n as [|n IH]; intros i rc; simpl.
  - apply keeps_ret.
  - apply keeps_bind; [by apply next_model_run_config_keeps|intros mrc; apply IH].
Qed.

Lemma next_run_config_keeps {B} (f : State -> B) :
  (forall v s, f (set_variant_name_manager v s) = f s) ->
  keeps f next_run_config.
Proof.
  intros H1. unfold _get_next_run_config.
  apply keeps_bind; [apply keeps_get|intros s]. by apply add_model_run_configs_keeps.
Qed.

Lemma pull_keeps {B} (f : State -> B) fs :
  (forall v s, f (set_coordinate_to_measure v s) = f s) ->
  (forall v s, f (set_current_coordinate v s) = f s) ->
  (forall v s, f (set_neighborhood v s) = f s) ->
  (forall v s, f (set_done v s) = f s) ->
  (forall v s, f (set_variant_name_manager v s) = f s) ->
  (forall v s, f (set_generator_started v s) = f s) ->
  f (snd (snd (next fs))) = f (snd fs).
Proof.
  intros H1 H2 H3 H4 H5 H6. destruct fs as [[| |] s]; simpl; [| |done].
  - unfold run_body.
    pose proof (keeps_bind f (modify (set_generator_started true))
                  (fun _ => next_run_config)) as Hk.
    specialize (Hk (keeps_modify f _ (H6 true))
                   (fun _ => next_run_config_keeps f H5) s).
    by destruct (bindM _ _ s) as [[rc|e] s'].
  - unfold run_body.
    pose proof (keeps_bind f step (fun _ => next_run_config)
                  (step_keeps f H1 H2 H3 H4)
                  (fun _ => next_run_config_keeps f H5) s) as Hk.
    by destruct (bindM _ _ s) as [[rc|e] s'].
Qed.

(** *** Throughput is only ever set by a valid measurement *)

Lemma feed_without_coordinate measurements (s : State) :
  coordinate_to_measure s = None -> feed measurements s = (Err TypeError, s).
Proof.
  intros Hc. unfold set_last_results, bindM, get, the_coordinate. by rewrite Hc.
Qed.

(** The driver states that a consumer can bring about: construction, then
    any interleaving of pulls and feedback calls.  The history lists, most
    recent first, every feedback call with the coordinate that was being
    measured when it was made. *)
Inductive reaches (models : list Model)
  : Frame * State -> list (option Coordinate * option (list (option Measurement))) -> Prop :=
| reach_init s :
    start models = Ok s -> reaches models (Created, s) []
| reach_pull fs h :
    reaches models fs h -> reaches models (snd (next fs)) h
| reach_feedback frame s h measurements :
    reaches models (frame, s) h ->
    reaches models (frame, snd (feed measurements s))
      ((coordinate_to_measure s, measurements) :: h).

(** C6: a coordinate has a throughput only if some earlier feedback call,
    made while that coordinate was being measured, carried a measurement as
    its single item; feedback that is [None] or starts with [None] stores
    nothing, and pulling stores nothing. *)
Theorem throughput_only_after_valid_measurement models fs h :
  reaches models fs h ->
  (forall c t,
     get_throughput (coordinate_data (snd fs)) c = Some t ->
     exists m, In (Some c, Some [Some m]) h) /\
  (forall measurements,
     measurements = None \/ (exists rest, measurements = Some (None :: rest)) ->
     throughputs (coordinate_data (snd (feed measurements (snd fs)))) =
     throughputs (coordinate_data (snd fs))) /\
  throughputs (coordinate_data (snd (snd (next fs)))) =
    throughputs (coordinate_data (snd fs)).
Proof.
  intros Hreach. split; [|split].
  - induction Hreach as [s Hinit | fs h Hreach IH | frame s h measurements Hreach IH];
      intros c t Ht.
    + unfold init in Hinit.
      destruct (determine_triton_server_env models); [|discriminate].
      injection Hinit as <-. simpl in Ht. unfold get_throughput in Ht. simpl in Ht.
      by rewrite lookup_empty in Ht.
    + apply (IH c t). rewrite <- Ht. symmetry.
      by apply (pull_keeps (fun s => get_throughput (coordinate_data s) c)).
    + simpl in *. destruct (coordinate_to_measure s) as [c0|] eqn:Hc0.
      * rewrite (feed_spec _ _ _ Hc0) in Ht. simpl in Ht.
        destruct (recorded_throughput measurements) as [t0|] eqn:Hrec.
        -- rewrite get_throughput_set, get_throughput_increment in Ht.
           destruct (decide (c0 = c)) as [->|Hne].
           ++ destruct measurements as [[|[m|] [|? ?]]|]; try discriminate. eauto.
           ++ destruct (IH c t Ht) as [m Hm]. eauto.
        -- rewrite get_throughput_increment in Ht.
           destruct (IH c t Ht) as [m Hm]. eauto.
      * rewrite (feed_without_coordinate _ _ Hc0) in Ht. simpl in Ht.
        destruct (IH c t Ht) as [m Hm]. eauto.
  - intros measurements Hms.
    destruct (coordinate_to_measure (snd fs)) as [c0|] eqn:Hc0.
    + rewrite (feed_spec _ _ _ Hc0).
      by destruct Hms as [->|[rest ->]].
    + by rewrite (feed_without_coordinate _ _ Hc0).
  - by apply (pull_keeps (fun s => throughputs (coordinate_data s))).
Qed.

(** *** The fallback after a missing result *)

(** C8: when no throughput is stored for the coordinate just measured, the
    step selects the nearest unvisited neighbor of that coordinate in the
    current neighborhood as the next coordinate to measure and leaves the
    center and the neighborhood as they are. *)
Theorem invalid_result_falls_back (s : State) c :
  coordinate_to_measure s = Some c ->
  get_throughput (coordinate_data s) c = None ->
  exists s',
    step s = (Ok tt, s') /\
    coordinate_to_measure s' =
      get_nearest_unvisited_neighbor (neighborhood s) (coordinate_data s) (Some c) /\
    current_coordinate s' = current_coordinate s /\
    neighborhood s' = neighborhood s /\
    coordinate_data s' = coordinate_data s.
Proof.
  intros Hc Ht.
  unfold _step, _get_last_results, _handle_invalid_last_results, the_coordinate,
    bindM, get, modify, ret.
  rewrite Hc. simpl. rewrite Ht. simpl. rewrite Hc.
  destruct (get_nearest_unvisited_neighbor _ _ _) eqn:Hn; simpl;
    eexists; (split; [reflexivity|]); simpl; rewrite ?Hn; auto.
Qed.

(** *** From a coordinate to a RunConfig *)

Abbreviation MRC := (@ModelRunConfig ModelConfig PerfAnalyzerConfig).

Definition param_combo (mbs ic : Z) : ParamCombo :=
  {| dynamic_batching := ∅;
     max_batch_size := mbs;
     instance_group := [ {| count := ic; kind := "KIND_GPU"; rate_limiter_priority := 1 |} ] |}.

(** [mrc] is the entry for [model] built from the dictionary [dv] of
    concrete values: batch size and instance count go into the generated
    model configuration, concurrency into the load-generator parameters,
    which the model's own flags then update. *)
Definition built_from (model : Model) (dv : gmap string Z) (mrc : MRC) : Prop :=
  exists mbs ic conc names,
    dv !! "max_batch_size"%string = Some mbs /\
    dv !! "instance_count"%string = Some ic /\
    dv !! "concurrency"%string = Some conc /\
    mrc_model_name mrc = model_name model /\
    mrc_model_config mrc = fst (make_model_config (param_combo mbs ic) model names) /\
    mrc_perf_config mrc =
      update_config (perf_analyzer_flags model)
        (update_config
           (perf_config_params (get_field_name (mrc_model_config mrc)) conc)
           PerfAnalyzerConfig_new) /\
    perf_config_params (get_field_name (mrc_model_config mrc)) conc
      !! "concurrency-range"%string = Some (PyInt conc).

(** The Dimension tables give every model its three values. *)
Definition table_ok (values : list (gmap string Z)) (n : nat) : Prop :=
  forall i, i < n ->
    exists dv, values !! i = Some dv /\
      is_Some (dv !! "max_batch_size"%string) /\
      is_Some (dv !! "instance_count"%string) /\
      is_Some (dv !! "concurrency"%string).

Lemma concurrency_range_param name conc :
  perf_config_params name conc !! "concurrency-range"%string = Some (PyInt conc).
Proof.
  unfold perf_config_params.
  rewrite !lookup_insert_ne by done. apply lookup_insert_eq.
Qed.

Lemma next_model_run_config_spec (s : State) c values i model dv :
  coordinate_to_measure s = Some c ->
  get_values_for_coordinate (Some c) = Ok values ->
  models s !! i = Some model ->
  values !! i = Some dv ->
  is_Some (dv !! "max_batch_size"%string) ->
  is_Some (dv !! "instance_count"%string) ->
  is_Some (dv !! "concurrency"%string) ->
  exists mrc s',
    _get_next_model_run_config get_values_for_coordinate make_model_config
      get_field_name PerfAnalyzerConfig_new update_config i s = (Ok mrc, s') /\
    built_from model dv mrc /\
    models s' = models s /\
    coordinate_to_measure s' = coordinate_to_measure s /\
    triton_env s' = triton_env s.
Proof.
  intros Hc Hvalues Hmodel Hdv [mbs Hmbs] [ic Hic] [conc Hconc].
  unfold _get_next_model_run_config, _get_next_model_config,
    _get_next_perf_analyzer_config, _get_coordinate_values, dict_getitem,
    py_getitem, bindM, get, lift, modify, ret.
  rewrite Hc, Hvalues, Hdv, Hmbs, Hic, Hmodel.
  destruct (make_model_config _ model (variant_name_manager s)) as [mc names'] eqn:Hmk.
  simpl. rewrite Hc, Hvalues, Hdv, Hconc, Hmodel. simpl. rewrite Hmodel.
  eexists _, _. split; [reflexivity|]. split; [|by simpl].
  exists mbs, ic, conc, (variant_name_manager s). simpl.
  unfold param_combo. rewrite Hmk. simpl.
  repeat (split; [done|]). apply concurrency_range_param.
Qed.

Lemma assemble_model_run_configs_spec c values :
  get_values_for_coordinate (Some c) = Ok values ->
  forall n i rc (s : State),
    coordinate_to_measure s = Some c ->
    i + n = length (models s) ->
    table_ok values (length (models s)) ->
    exists rc' s' l,
      add_model_run_configs get_values_for_coordinate make_model_config
        get_field_name PerfAnalyzerConfig_new update_config i n rc s = (Ok rc', s') /\
      rc_triton_env rc' = rc_triton_env rc /\
      rc_model_run_configs rc' = rc_model_run_configs rc ++ l /\
      length l = n /\
      forall j model, j < n -> models s !! (i + j) = Some model ->
        exists dv mrc,
          values !! (i + j) = Some dv /\ l !! j = Some mrc /\ built_from model dv mrc.
Proof.
  intros Hvalues. induction n as [|n IH]; intros i rc s Hc Hlen Htable.
  - exists rc, s, []. simpl. rewrite app_nil_r.
    repeat (split; [done|]). intros j model Hj. lia.
  - assert (i < length (models s)) as Hi by lia.
    destruct (lookup_lt_is_Some_2 _ _ Hi) as [model Hmodel].
    destruct (Htable i Hi) as (dv & Hdv & Hmbs & Hic & Hconc).
    destruct (next_model_run_config_spec s c values i model dv
                Hc Hvalues Hmodel Hdv Hmbs Hic Hconc)
      as (mrc & s1 & Hrun & Hbuilt & Hms1 & Hc1 & _).
    destruct (IH (S i) (add_model_run_config mrc rc) s1) as (rc' & s' & l & Hadd & Henv & Hl & Hlen' & Hall).
    { by rewrite Hc1. }
    { rewrite Hms1. lia. }
    { by rewrite Hms1. }
    exists rc', s', (mrc :: l).
    cbn [add_model_run_configs]. unfold bindM at 1. rewrite Hrun.
    split; [exact Hadd|]. split; [exact Henv|].
    split; [rewrite Hl; simpl; by rewrite <- app_assoc|].
    split; [simpl; by rewrite Hlen'|].
    intros [|j] model' Hj Hmodel'.
    + rewrite Nat.add_0_r in *. rewrite Hmodel in Hmodel'. injection Hmodel' as <-.
      exists dv, mrc. by simpl.
    + destruct (Hall j model') as (dv' & mrc' & Hdv' & Hmrc' & Hb'); [lia| |].
      { rewrite Hms1. by replace (S i + j) with (i + S j) by lia. }
      exists dv', mrc'. replace (S i + j) with (i + S j) in Hdv' by lia. by simpl.
Qed.

(** C9: for the coordinate being measured, the RunConfig carries the shared
    server environment and one entry per model, in model order, each built
    from that model's concrete values for the coordinate. *)
Theorem run_config_assembly (s : State) c values :
  coordinate_to_measure s = Some c ->
  get_values_for_coordinate (Some c) = Ok values ->
  table_ok values (length (models s)) ->
  exists rc s',
    next_run_config s = (Ok rc, s') /\
    rc_triton_env rc = triton_env s /\
    length (rc_model_run_configs rc) = length (models s) /\
    forall i model, models s !! i = Some model ->
      exists dv mrc,
        values !! i = Some dv /\
        rc_model_run_configs rc !! i = Some mrc /\
        built_from model dv mrc.
Proof.
  intros Hc Hvalues Htable.
  destruct (assemble_model_run_configs_spec c values Hvalues (length (models s)) 0
              {| rc_triton_env := triton_env s; rc_model_run_configs := [] |} s Hc)
    as (rc & s' & l & Hadd & Henv & Hl & Hlen & Hall); [done|done|].
  exists rc, s'. unfold _get_next_run_config, bindM, get. simpl in *.
  split; [exact Hadd|]. split; [exact Henv|]. subst l.
  split; [exact Hlen|].
  intros i model Hmodel. apply (Hall i model); [|done].
  by eapply lookup_lt_Some.
Qed.

(** *** The done flag *)

(** A directed step to the center itself, or to a coordinate visited twice
    already, sets the done flag and makes the new coordinate both the center
    and the coordinate to measure. *)
Lemma take_step_marks_done (s : State) c t :
  coordinate_to_measure s = Some c ->
  get_throughput (coordinate_data s) c = Some t ->
  enough_coordinates_initialized (neighborhood s) (coordinate_data s) = true ->
  calculate_new_coordinate (neighborhood s) (coordinate_data s) (_get_magnitude get_step_magnitude s)
    = current_coordinate s \/
  2 <= get_visit_count (coordinate_data s)
         (calculate_new_coordinate (neighborhood s) (coordinate_data s)
            (_get_magnitude get_step_magnitude s)) ->
  exists s',
    step s = (Ok tt, s') /\
    done s' = true /\
    current_coordinate s' =
      calculate_new_coordinate (neighborhood s) (coordinate_data s)
        (_get_magnitude get_step_magnitude s) /\
    coordinate_to_measure s' = Some (current_coordinate s').
Proof.
  intros Hc Ht Henough Hstop.
  unfold _step, _get_last_results, _take_step, _determine_if_done,
    _recreate_neighborhood, the_coordinate, bindM, get, modify, ret.
  rewrite Hc. simpl. rewrite Ht. simpl. rewrite Henough. simpl.
  set (new := calculate_new_coordinate _ _ _) in *.
  destruct (decide (new = current_coordinate s)) as [Heq|Hne]; simpl;
    destruct (decide (2 <= get_visit_count (coordinate_data s) new)) as [Hv|Hv]; simpl;
    try (eexists; repeat split; reflexivity).
  exfalso. destruct Hstop; [by apply Hne | by apply Hv].
Qed.

(** A step that leaves no coordinate to measure sets the done flag. *)
Lemma step_without_candidate_marks_done (s s' : State) :
  step s = (Ok tt, s') -> coordinate_to_measure s' = None -> done s' = true.
Proof.
  unfold _step. unfold bindM at 1.
  match goal with |- context [match ?m s with _ => _ end] => destruct (m s) as [[[]|e] s1] end;
    [|discriminate].
  unfold bindM, get, modify, ret.
  destruct (coordinate_to_measure s1) eqn:Hc1; intros [= <-]; simpl; [congruence|done].
Qed.

(** *** The loop of [get_configs] has no exit *)

Lemma pull_never_ends frame (s : State) :
  frame <> Closed -> fst (next (frame, s)) <> StopIteration.
Proof.
  intros Hframe. destruct frame; [| |done]; simpl; unfold run_body;
    by destruct (bindM _ _ s) as [[rc|e] s'].
Qed.

(** *** The shared server environment *)

Lemma feed_keeps {B} (f : State -> B) measurements :
  (forall v s, f (set_coordinate_data v s) = f s) ->
  keeps f (feed measurements).
Proof.
  intros H1. unfold set_last_results, _get_last_results, the_coordinate.
  keeps_tac.
Qed.

Lemma add_model_run_configs_env n :
  forall i rc0 (s : State) rc s',
    add_model_run_configs get_values_for_coordinate make_model_config
      get_field_name PerfAnalyzerConfig_new update_config i n rc0 s = (Ok rc, s') ->
    rc_triton_env rc = rc_triton_env rc0.
Proof.
  induction n as [|n IH]; intros i rc0 s rc s'; simpl.
  - by intros [= <- _].
  - unfold bindM at 1.
    destruct (_get_next_model_run_config _ _ _ _ _ i s) as [[mrc|e] s1]; [|discriminate].
    intros Hadd. by rewrite (IH _ _ _ _ _ Hadd).
Qed.

Lemma next_run_config_env (s : State) rc s' :
  next_run_config s = (Ok rc, s') -> rc_triton_env rc = triton_env s.
Proof.
  unfold _get_next_run_config, bindM, get. intros Hadd.
  by rewrite (add_model_run_configs_env _ _ _ _ _ _ Hadd).
Qed.

Lemma pulled_env frame (s : State) rc :
  fst (next (frame, s)) = Yielded rc -> rc_triton_env rc = triton_env s.
Proof.
  destruct frame; simpl; [| |discriminate]; unfold run_body.
  - destruct (bindM _ _ s) as [[rc'|e] s'] eqn:Hbody; [|discriminate].
    intros [= <-]. unfold bindM, modify in Hbody. simpl in Hbody.
    by rewrite (next_run_config_env _ _ _ Hbody).
  - destruct (bindM _ _ s) as [[rc'|e] s'] eqn:Hbody; [|discriminate].
    intros [= <-]. unfold bindM at 1 in Hbody.
    pose proof (step_keeps triton_env (fun _ _ => eq_refl) (fun _ _ => eq_refl)
                  (fun _ _ => eq_refl) (fun _ _ => eq_refl) s) as Hkeep.
    destruct (step s) as [[[]|e] s1]; [|discriminate].
    simpl in Hkeep. rewrite <- Hkeep. by apply (next_run_config_env _ _ _ Hbody).
Qed.

Lemma reaches_env models fs h env :
  determine_triton_server_env models = Ok env ->
  reaches models fs h -> triton_env (snd fs) = env.
Proof.
  intros Henv Hreach.
  induction Hreach as [s Hinit | fs h Hreach IH | frame s h measurements Hreach IH].
  - unfold init in Hinit. rewrite Henv in Hinit. by injection Hinit as <-.
  - rewrite <- IH. by apply (pull_keeps triton_env).
  - simpl in *. rewrite <- IH. by apply (feed_keeps triton_env).
Qed.

Lemma check_triton_env_same env models :
  (forall m, In m models -> triton_server_environment m = env) ->
  check_triton_env env models = Ok env.
Proof.
  induction models as [|m models IH]; intros Hall; simpl; [done|].
  destruct (decide (triton_server_environment m <> env)) as [Hne|_].
  - exfalso. apply Hne, Hall. by left.
  - apply IH. intros m' Hm'. apply Hall. by right.
Qed.

Lemma check_triton_env_mismatch env models :
  (exists m, In m models /\ triton_server_environment m <> env) ->
  check_triton_env env models = Err TritonModelAnalyzerException.
Proof.
  induction models as [|m models IH]; intros (m' & Hin & Hne); simpl; [done|].
  destruct (decide (triton_server_environment m <> env)) as [_|Heq]; [done|].
  apply IH. exists m'. split; [|done].
  destruct Hin as [->|Hin]; [|done]. by destruct Heq.
Qed.

Context {CModelRunConfig CMeasurement : Type}.
Variable c_default_config : Model -> CModelRunConfig.
Variable c_all_configs : Model -> list CModelRunConfig.

(** C4: with a first model and all environments equal to its environment,
    that environment is what [determine_triton_server_env] returns, both
    generators are constructed with it, and every RunConfig either of them
    produces carries it; with some model whose environment differs, both
    constructors raise [TritonModelAnalyzerException], so that there is no
    generator to produce anything. *)
Theorem shared_server_environment model0 rest :
  ((forall m, In m (model0 :: rest) ->
      triton_server_environment m = triton_server_environment model0) ->
   determine_triton_server_env (model0 :: rest) =
     Ok (triton_server_environment model0) /\
   (exists s : @Composite.RunConfigGenerator CModelRunConfig CMeasurement,
      Composite.init (model0 :: rest) = Ok s /\
      Composite.triton_env s = triton_server_environment model0 /\
      forall feedback rc,
        In rc (Composite.produced
                 (Composite.pull_all c_default_config c_all_configs feedback s)) ->
        Composite.rc_triton_env rc = triton_server_environment model0) /\
   (exists s : State,
      start (model0 :: rest) = Ok s /\
      triton_env s = triton_server_environment model0 /\
      forall fs h rc,
        reaches (model0 :: rest) fs h ->
        fst (next fs) = Yielded rc ->
        rc_triton_env rc = triton_server_environment model0)) /\
  ((exists m, In m (model0 :: rest) /\
      triton_server_environment m <> triton_server_environment model0) ->
   determine_triton_server_env (model0 :: rest) = Err TritonModelAnalyzerException /\
   @Composite.init CModelRunConfig CMeasurement (model0 :: rest) =
     Err TritonModelAnalyzerException /\
   start (model0 :: rest) = Err TritonModelAnalyzerException).
Proof.
  split.
  - intros Hall.
    assert (determine_triton_server_env (model0 :: rest) =
            Ok (triton_server_environment model0)) as Henv.
    { unfold determine_triton_server_env. cbn [py_getitem lookup list_lookup].
      by apply check_triton_env_same. }
    split; [exact Henv|]. split.
    + unfold Composite.init. rewrite Henv. eexists. split; [reflexivity|].
      split; [reflexivity|]. intros feedback rc Hin.
      match type of Hin with
      | In _ (Composite.produced (Composite.pull_all _ _ _ ?s0)) =>
          destruct (CompositeFacts.get_configs_spec c_default_config c_all_configs
                      feedback (model0 :: rest) s0) as (_ & _ & _ & _ & Hp)
      end.
      { unfold Composite.init. by rewrite Henv. }
      rewrite Hp in Hin. destruct Hin as [<-|Hin]; [done|].
      apply in_map_iff in Hin. by destruct Hin as (combo & <- & _).
    + unfold init. rewrite Henv. eexists. split; [reflexivity|].
      split; [reflexivity|]. intros [frame s] h rc Hreach Hrc.
      rewrite (pulled_env _ _ _ Hrc).
      apply (reaches_env _ _ _ _ Henv Hreach).
  - intros Hbad.
    assert (determine_triton_server_env (model0 :: rest) =
            Err TritonModelAnalyzerException) as Henv.
    { unfold determine_triton_server_env. cbn [py_getitem lookup list_lookup].
      by apply check_triton_env_mismatch. }
    split; [exact Henv|]. unfold Composite.init, init. by rewrite Henv.
Qed.

End Facts.

Import Scenario.

Abbreviation hill_reaches :=
  (reaches metric min_indexes radius step_magnitude neighborhood_config
     values_for_coordinate enough new_coordinate unvisited_center nearest_unvisited
     make_config config_name ∅ perf_update tt).

Lemma hill_start_init :
  init min_indexes neighborhood_config tt [model_a] = Ok hill_start.
Proof. reflexivity. Qed.

Lemma visit_count_incremented_witness :
  coordinate_to_measure hill_produced = Some [0; 0; 0] /\
  get_visit_count (coordinate_data (snd (hill_feed None hill_produced))) [0; 0; 0] =
    get_visit_count (coordinate_data hill_produced) [0; 0; 0] + 1.
Proof.
  split; [reflexivity|].
  apply (visit_count_incremented metric None hill_produced [0; 0; 0]).
  reflexivity.
Defined.

Lemma one_measurement_per_feedback_witness :
  coordinate_to_measure hill_produced = Some [0; 0; 0] /\
  fst (hill_feed (Some [Some 100%Z; Some 7%Z]) hill_produced) = Err AssertionError /\
  fst (hill_feed (Some [None; Some 7%Z]) hill_produced) = Ok tt.
Proof.
  split; [reflexivity|].
  split.
  - destruct (one_measurement_per_feedback metric (Some [Some 100%Z; Some 7%Z])
                hill_produced [0; 0; 0] eq_refl) as [Hvalid _].
    destruct (Hvalid 100%Z [Some 7%Z] eq_refl) as [_ Hlong].
    apply Hlong. discriminate.
  - destruct (one_measurement_per_feedback metric (Some [None; Some 7%Z])
                hill_produced [0; 0; 0] eq_refl) as [_ Hnone].
    apply Hnone. right. by exists [Some 7%Z].
Defined.

Lemma hill_measured_reached :
  hill_reaches [model_a] hill_measured [(Some [0; 0; 0], Some [Some 100%Z])].
Proof.
  exact (reach_feedback metric min_indexes radius step_magnitude neighborhood_config
           values_for_coordinate enough new_coordinate unvisited_center
           nearest_unvisited make_config config_name ∅ perf_update tt
           [model_a] AtYield hill_produced [] (Some [Some 100%Z])
           (reach_pull metric min_indexes radius step_magnitude neighborhood_config
              values_for_coordinate enough new_coordinate unvisited_center
              nearest_unvisited make_config config_name ∅ perf_update tt
              [model_a] (Created, hill_start) []
              (reach_init metric min_indexes radius step_magnitude neighborhood_config
                 values_for_coordinate enough new_coordinate unvisited_center
                 nearest_unvisited make_config config_name ∅ perf_update tt
                 [model_a] hill_start eq_refl))).
Defined.

Lemma throughput_only_after_valid_measurement_witness :
  hill_reaches [model_a] hill_measured [(Some [0; 0; 0], Some [Some 100%Z])] /\
  forall c t,
    get_throughput (coordinate_data (snd hill_measured)) c = Some t ->
    exists m, In (Some c, Some [Some m]) [(Some [0; 0; 0], Some [Some 100%Z])].
Proof.
  split; [exact hill_measured_reached|].
  apply (throughput_only_after_valid_measurement _ _ _ _ _ _ _ _ _ _ _ _ _ _ _
           [model_a] hill_measured _ hill_measured_reached).
Defined.

Lemma invalid_result_falls_back_witness :
  coordinate_to_measure (snd hill_failed) = Some [0; 0; 0] /\
  get_throughput (coordinate_data (snd hill_failed)) [0; 0; 0] = None /\
  exists s',
    _step radius step_magnitude neighborhood_config enough new_coordinate
      unvisited_center nearest_unvisited (snd hill_failed) = (Ok tt, s') /\
    current_coordinate s' = current_coordinate (snd hill_failed).
Proof.
  split; [reflexivity|]. split; [reflexivity|].
  destruct (invalid_result_falls_back radius step_magnitude neighborhood_config
              enough new_coordinate unvisited_center nearest_unvisited
              (snd hill_failed) [0; 0; 0] eq_refl eq_refl)
    as (s' & Hstep & _ & Hcenter & _).
  exists s'. split; [exact Hstep | exact Hcenter].
Defined.

Lemma hill_table_ok :
  table_ok [ <["max_batch_size" := 1]> (<["instance_count" := 1]>
             (<["concurrency" := 1]> ∅)) ]%Z 1.
Proof.
  intros i Hi. destruct i as [|i]; [|lia].
  eexists. split; [reflexivity|].
  repeat split; eexists; reflexivity.
Defined.

Lemma run_config_assembly_witness :
  coordinate_to_measure hill_start = Some [0; 0; 0] /\
  exists rc s',
    _get_next_run_config values_for_coordinate make_config config_name ∅ perf_update
      hill_start = (Ok rc, s') /\
    rc_triton_env rc = env_a /\
    length (rc_model_run_configs rc) = 1.
Proof.
  split; [reflexivity|].
  destruct (run_config_assembly values_for_coordinate make_config config_name ∅
              perf_update hill_start [0; 0; 0] _ eq_refl eq_refl hill_table_ok)
    as (rc & s' & Hrun & Henv & Hlen & _).
  exists rc, s'. split; [exact Hrun|]. split; [exact Henv | exact Hlen].
Defined.

Lemma shared_server_environment_witness :
  determine_triton_server_env [model_a; model_b] = Ok env_a /\
  determine_triton_server_env [model_a; model_c] = Err TritonModelAnalyzerException.
Proof.
  split.
  - apply (shared_server_environment metric min_indexes radius step_magnitude
             neighborhood_config values_for_coordinate enough new_coordinate
             unvisited_center nearest_unvisited make_config config_name ∅ perf_update tt
             Scenario.default_config Scenario.all_configs (CMeasurement := nat)
             model_a [model_b]).
    intros m [<-|[<-|[]]]; reflexivity.
  - apply (shared_server_environment metric min_indexes radius step_magnitude
             neighborhood_config values_for_coordinate enough new_coordinate
             unvisited_center nearest_unvisited make_config config_name ∅ perf_update tt
             Scenario.default_config Scenario.all_configs (CMeasurement := nat)
             model_a [model_c]).
    exists model_c. split; [right; by left|]. discriminate.
Defined.

(** C2 on the flat surface: the step that follows the first valid
    measurement computes the center itself as the new coordinate and sets the
    done flag, yet the same pull goes on to produce a RunConfig, and so does
    the pull after the next feedback. *)
Theorem done_flag_does_not_end_the_sequence :
  new_coordinate (neighborhood (snd hill_measured))
    (coordinate_data (snd hill_measured)) step_magnitude =
    current_coordinate (snd hill_measured) /\
  done (snd (snd (hill_pull hill_measured))) = true /\
  yielded (fst (hill_pull hill_measured)) = true /\
  yielded (fst (hill_pull
                  (AtYield,
                   snd (hill_feed (Some [Some 100%Z])
                          (snd (snd (hill_pull hill_measured))))))) = true.
Proof. repeat split; vm_compute; reflexivity. Qed.

(** C7 on the single-point space: after a failed run there is no unvisited
    neighbor, the step leaves no coordinate to measure and sets the done
    flag, and the pull does not end the sequence but raises. *)
Theorem exhaustion_raises :
  coordinate_to_measure (snd (snd (hill_pull hill_failed))) = None /\
  done (snd (snd (hill_pull hill_failed))) = true /\
  fst (hill_pull hill_failed) = Raised TypeError /\
  fst (hill_pull hill_failed) <> StopIteration.
Proof. repeat split; try (vm_compute; reflexivity). vm_compute. discriminate. Qed.

End HillClimbFacts.

(** * Further properties of the composite enumerator *)

Module CompositeMore.

Import Composite CompositeFacts.

Section More.

Context {ModelRunConfig Measurement : Type}.
Variable default_config : Model -> ModelRunConfig.
Variable all_configs : Model -> list ModelRunConfig.

Abbreviation State := (@RunConfigGenerator ModelRunConfig Measurement).

Lemma product_length {A} (ls : list (list A)) combo :
  In combo (product ls) -> length combo = length ls.
Proof.
  revert combo. induction ls as [|l ls IH]; intros combo Hin; simpl in *.
  - by destruct Hin as [<-|[]].
  - apply in_flat_map in Hin. destruct Hin as (x & _ & Hin).
    apply in_map_iff in Hin. destruct Hin as (rest & <- & Hrest).
    simpl. by rewrite (IH rest).
Qed.

Lemma product_with_empty {A} (ls : list (list A)) :
  In [] ls -> product ls = [].
Proof.
  induction ls as [|l ls IH]; intros Hin; simpl; [done|].
  destruct Hin as [->|Hin]; [done|].
  rewrite (IH Hin). simpl. clear. by induction l.
Qed.

(** X1: after the all-default value, the sequence is the product of the
    per-model configuration lists in depth-first order (the first model's
    choice varies slowest); every produced RunConfig has exactly one entry
    per model, and no entry is [None]. *)
Theorem full_phase_depth_first feedback models (s : State) :
  init models = Ok s ->
  produced (pull_all default_config all_configs feedback s) =
    all_default default_config (triton_env s) models ::
    map (fun combo => mk (triton_env s) (map Some combo))
      (product (map all_configs models)) /\
  (forall rc, In rc (produced (pull_all default_config all_configs feedback s)) ->
     length (rc_model_run_configs rc) = length models /\
     ~ In None (rc_model_run_configs rc)).
Proof.
  intros Hinit.
  destruct (get_configs_spec default_config all_configs feedback models s Hinit)
    as (_ & _ & _ & _ & Hp).
  split; [exact Hp|]. rewrite Hp. intros rc [<-|Hin].
  - simpl. rewrite length_map. split; [done|].
    intros Hnone. apply in_map_iff in Hnone. by destruct Hnone as (m & ? & _).
  - apply in_map_iff in Hin. destruct Hin as (combo & <- & Hcombo). simpl.
    rewrite length_map, (product_length _ _ Hcombo), length_map. split; [done|].
    intros Hnone. apply in_map_iff in Hnone. by destruct Hnone as (c & ? & _).
Qed.

(** X2: when some model has no legal configuration at all, the full phase
    produces nothing: the all-default value is the whole sequence. *)
Theorem model_without_configs_mutes_full_phase feedback models (s : State) model :
  init models = Ok s ->
  In model models ->
  all_configs model = [] ->
  produced (pull_all default_config all_configs feedback s) =
    [all_default default_config (triton_env s) models].
Proof.
  intros Hinit Hin Hnone.
  destruct (get_configs_spec default_config all_configs feedback models s Hinit)
    as (_ & _ & _ & _ & Hp).
  rewrite Hp, product_with_empty; [done|].
  apply in_map_iff. eauto.
Qed.

(** X3: two feedback calls made while the generator is suspended leave in
    every buffer what one call with the concatenated measurements leaves;
    neither call raises, and apart from the buffers (and the event record)
    the object is untouched. *)
Theorem feedback_calls_accumulate a b (s : State) :
  num_models s = length (curr_results s) ->
  exists s1 s2 s12,
    set_last_results a s = (Ok tt, s1) /\
    set_last_results b s1 = (Ok tt, s2) /\
    set_last_results (a ++ b) s = (Ok tt, s12) /\
    curr_results s2 = curr_results s12 /\
    models s2 = models s /\ triton_env s2 = triton_env s /\
    curr_model_run_configs s2 = curr_model_run_configs s /\
    curr_generators s2 = curr_generators s /\
    heap s2 = heap s /\ default_returned s2 = default_returned s.
Proof.
  intros Hn. eexists _, _, _.
  split; [by apply set_last_results_spec|].
  split; [apply set_last_results_spec; simpl; by rewrite length_fmap|].
  split; [by apply set_last_results_spec|].
  simpl. split; [|done].
  rewrite <- list_fmap_compose. apply list_fmap_ext.
  intros i buf _. simpl. by rewrite app_assoc.
Qed.

End More.

Import Scenario.

(** The second model has no legal configuration. *)
Definition all_configs_b_none (m : Model) : list nat :=
  if decide (model_name m = "a"%string) then [10; 11] else [].

Lemma full_phase_depth_first_witness :
  init [model_a; model_b] = Ok composite_start /\
  produced composite_run =
    all_default Scenario.default_config env_a [model_a; model_b] ::
    map (fun combo => mk env_a (map Some combo))
      (product (map Scenario.all_configs [model_a; model_b])).
Proof.
  split; [reflexivity|].
  exact (proj1 (full_phase_depth_first Scenario.default_config Scenario.all_configs
                  Scenario.feedback [model_a; model_b] composite_start eq_refl)).
Defined.

Lemma model_without_configs_mutes_full_phase_witness :
  init [model_a; model_b] = Ok composite_start /\
  In model_b [model_a; model_b] /\
  all_configs_b_none model_b = [] /\
  produced (pull_all Scenario.default_config all_configs_b_none Scenario.feedback
              composite_start) =
    [all_default Scenario.default_config env_a [model_a; model_b]].
Proof.
  split; [reflexivity|]. split; [right; by left|]. split; [reflexivity|].
  apply (model_without_configs_mutes_full_phase Scenario.default_config
           all_configs_b_none Scenario.feedback [model_a; model_b] composite_start
           model_b).
  - reflexivity.
  - right. by left.
  - reflexivity.
Defined.

Lemma feedback_calls_accumulate_witness :
  num_models composite_start = length (curr_results composite_start) /\
  exists s2 s12 : @RunConfigGenerator nat nat,
    curr_results s2 = [[1; 2; 3]; [1; 2; 3]] /\
    set_last_results [1; 2; 3] composite_start = (Ok tt, s12) /\
    curr_results s2 = curr_results s12.
Proof.
  split; [reflexivity|].
  destruct (feedback_calls_accumulate [1] [2; 3] composite_start eq_refl)
    as (s1 & s2 & s12 & H1 & H2 & H12 & Hsame & _).
  exists s2, s12. split; [|split; [exact H12 | exact Hsame]].
  rewrite Hsame. by injection H12 as <-.
Defined.

End CompositeMore.

(** * Further properties of the hill-climbing driver *)

Module HillClimbMore.

Import HillClimb HillClimbFacts.

Section More.

Context {Measurement Throughput ModelConfig PerfAnalyzerConfig
         NeighborhoodConfig VariantNameManager : Type}.
Variable get_non_gpu_metric_value : Measurement -> string -> Throughput.
Variable get_min_indexes : list nat.
Variable get_radius : Z.
Variable get_step_magnitude : Z.
Variable get_neighborhood_config : option Z -> NeighborhoodConfig.
Variable get_values_for_coordinate : option Coordinate -> Res (list (gmap string Z)).

Abbreviation Nbhd := (@Neighborhood NeighborhoodConfig).

Variable enough_coordinates_initialized : Nbhd -> CoordinateData Throughput -> bool.
Variable calculate_new_coordinate : Nbhd -> CoordinateData Throughput -> Z -> Coordinate.
Variable pick_coordinate_to_initialize : Nbhd -> CoordinateData Throughput -> option Coordinate.
Variable get_nearest_unvisited_neighbor :
  Nbhd -> CoordinateData Throughput -> option Coordinate -> option Coordinate.
Variable make_model_config :
  ParamCombo -> Model -> VariantNameManager -> ModelConfig * VariantNameManager.
Variable get_field_name : ModelConfig -> string.
Variable PerfAnalyzerConfig_new : PerfAnalyzerConfig.
Variable update_config : gmap string PyVal -> PerfAnalyzerConfig -> PerfAnalyzerConfig.
Variable VariantNameManager_new : VariantNameManager.

Abbreviation State :=
  (@UndirectedRunConfigGenerator Throughput NeighborhoodConfig VariantNameManager).

Abbreviation feed := (@set_last_results Measurement Throughput NeighborhoodConfig
                        VariantNameManager get_non_gpu_metric_value).
Abbreviation last_results :=
  (@_get_last_results Throughput NeighborhoodConfig VariantNameManager).
Abbreviation step :=
  (@_step Throughput NeighborhoodConfig VariantNameManager
     get_radius get_step_magnitude get_neighborhood_config
     enough_coordinates_initialized calculate_new_coordinate
     pick_coordinate_to_initialize get_nearest_unvisited_neighbor).
Abbreviation next_model_run_config :=
  (@_get_next_model_run_config Throughput ModelConfig PerfAnalyzerConfig
     NeighborhoodConfig VariantNameManager get_values_for_coordinate make_model_config
     get_field_name PerfAnalyzerConfig_new update_config).
Abbreviation next_run_config :=
  (@_get_next_run_config Throughput ModelConfig PerfAnalyzerConfig NeighborhoodConfig
     VariantNameManager get_values_for_coordinate make_model_config get_field_name
     PerfAnalyzerConfig_new update_config).
Abbreviation next :=
  (@pull Throughput ModelConfig PerfAnalyzerConfig NeighborhoodConfig VariantNameManager
     get_radius get_step_magnitude get_neighborhood_config get_values_for_coordinate
     enough_coordinates_initialized calculate_new_coordinate
     pick_coordinate_to_initialize get_nearest_unvisited_neighbor
     make_model_config get_field_name PerfAnalyzerConfig_new update_config).
Abbreviation start :=
  (@init Throughput NeighborhoodConfig VariantNameManager get_min_indexes
     get_neighborhood_config VariantNameManager_new).
Abbreviation reached :=
  (reaches get_non_gpu_metric_value get_min_indexes get_radius get_step_magnitude
     get_neighborhood_config get_values_for_coordinate enough_coordinates_initialized
     calculate_new_coordinate pick_coordinate_to_initialize
     get_nearest_unvisited_neighbor make_model_config get_field_name
     PerfAnalyzerConfig_new update_config VariantNameManager_new).

(** *** The three branches of a step *)

(** The state a directed step leaves. *)
Definition stepped (s : State) : State :=
  let new := calculate_new_coordinate (neighborhood s) (coordinate_data s)
               (get_step_magnitude + magnitude_offset s)%Z in
  {| models := models s;
     variant_name_manager := variant_name_manager s;
     triton_env := triton_env s;
     coordinate_data := coordinate_data s;
     current_coordinate := new;
     coordinate_to_measure := Some new;
     radius_offset := radius_offset s;
     magnitude_offset := magnitude_offset s;
     neighborhood :=
       {| nb_config := get_neighborhood_config (Some (get_radius + radius_offset s)%Z);
          nb_center := new |};
     generator_started := generator_started s;
     done := done s || bool_decide (new = current_coordinate s)
             || bool_decide (2 <= get_visit_count (coordinate_data s) new) |}.

(** The state a step leaves when it only chooses [next] as the coordinate
    to measure. *)
Definition retargeted (next : option Coordinate) (s : State) : State :=
  {| models := models s;
     variant_name_manager := variant_name_manager s;
     triton_env := triton_env s;
     coordinate_data := coordinate_data s;
     current_coordinate := current_coordinate s;
     coordinate_to_measure := next;
     radius_offset := radius_offset s;
     magnitude_offset := magnitude_offset s;
     neighborhood := neighborhood s;
     generator_started := generator_started s;
     done := done s || bool_decide (next = None) |}.

Lemma state_eta (s : State) :
  {| models := models s; variant_name_manager := variant_name_manager s;
     triton_env := triton_env s; coordinate_data := coordinate_data s;
     current_coordinate := current_coordinate s;
     coordinate_to_measure := coordinate_to_measure s;
     radius_offset := radius_offset s; magnitude_offset := magnitude_offset s;
     neighborhood := neighborhood s; generator_started := generator_started s;
     done := done s |} = s.
Proof. by destruct s. Qed.

Lemma step_cases (s : State) :
  step s =
  match coordinate_to_measure s with
  | None => (Err TypeError, s)
  | Some c =>
      match get_throughput (coordinate_data s) c with
      | None =>
          (Ok tt, retargeted (get_nearest_unvisited_neighbor (neighborhood s)
                                (coordinate_data s) (Some c)) s)
      | Some _ =>
          if enough_coordinates_initialized (neighborhood s) (coordinate_data s)
          then (Ok tt, stepped s)
          else (Ok tt, retargeted (pick_coordinate_to_initialize (neighborhood s)
                                     (coordinate_data s)) s)
      end
  end.
Proof.
  unfold _step, _get_last_results, _handle_invalid_last_results, _take_step,
    _pick_coordinate_to_initialize, _determine_if_done, _recreate_neighborhood,
    _get_magnitude, _get_radius, the_coordinate, bindM, get, modify, ret, raise.
  destruct s as [ms vnm env cd cur [c|] ro mo nb gs dn]; simpl; [|done].
  destruct (get_throughput cd c) as [t|]; simpl.
  - destruct (enough_coordinates_initialized nb cd); simpl.
    + unfold stepped; simpl.
      repeat case_decide; repeat case_bool_decide; try done;
        destruct dn; reflexivity.
    + unfold retargeted; simpl.
      destruct (pick_coordinate_to_initialize nb cd); simpl;
        rewrite ?orb_true_r, ?orb_false_r; reflexivity.
  - unfold retargeted; simpl.
    destruct (get_nearest_unvisited_neighbor nb cd (Some c)); simpl;
      rewrite ?orb_true_r, ?orb_false_r; reflexivity.
Qed.

(** X4: with a throughput stored for the measured coordinate and not enough
    initialized neighbors, the step only retargets: the coordinate picked by
    the neighborhood becomes the one to measure, while center, neighborhood
    and data stay; the done flag is raised exactly when nothing was picked. *)
Theorem sampling_step (s : State) c t :
  coordinate_to_measure s = Some c ->
  get_throughput (coordinate_data s) c = Some t ->
  enough_coordinates_initialized (neighborhood s) (coordinate_data s) = false ->
  exists s',
    step s = (Ok tt, s') /\
    coordinate_to_measure s' =
      pick_coordinate_to_initialize (neighborhood s) (coordinate_data s) /\
    current_coordinate s' = current_coordinate s /\
    neighborhood s' = neighborhood s /\
    coordinate_data s' = coordinate_data s /\
    (coordinate_to_measure s' = None -> done s' = true) /\
    (coordinate_to_measure s' <> None -> done s' = done s).
Proof.
  intros Hc Ht Henough. rewrite step_cases, Hc, Ht, Henough.
  eexists. split; [reflexivity|]. simpl. repeat (split; [done|]).
  split.
  - intros ->. by rewrite orb_true_r.
  - intros Hsome. rewrite bool_decide_eq_false_2 by done. by rewrite orb_false_r.
Qed.

(** X5: with a throughput stored for the measured coordinate and enough
    initialized neighbors, the step moves: the computed coordinate becomes
    center and coordinate to measure, the neighborhood is rebuilt around it
    for the configured radius plus the radius offset, the data stay, and
    afterwards the done flag is up exactly if it was up before, or the
    computed coordinate is the old center, or it had two visits or more. *)
Theorem directed_step (s : State) c t :
  coordinate_to_measure s = Some c ->
  get_throughput (coordinate_data s) c = Some t ->
  enough_coordinates_initialized (neighborhood s) (coordinate_data s) = true ->
  exists s' new,
    new = calculate_new_coordinate (neighborhood s) (coordinate_data s)
            (get_step_magnitude + magnitude_offset s)%Z /\
    step s = (Ok tt, s') /\
    current_coordinate s' = new /\
    coordinate_to_measure s' = Some new /\
    neighborhood s' =
      {| nb_config := get_neighborhood_config (Some (get_radius + radius_offset s)%Z);
         nb_center := new |} /\
    coordinate_data s' = coordinate_data s /\
    (done s' = true <->
     done s = true \/ new = current_coordinate s \/
     2 <= get_visit_count (coordinate_data s) new).
Proof.
  intros Hc Ht Henough. rewrite step_cases, Hc, Ht, Henough.
  eexists _, _. split; [reflexivity|]. split; [reflexivity|]. simpl.
  repeat (split; [done|]).
  rewrite !orb_true_iff, !bool_decide_eq_true. tauto.
Qed.

(** *** What pulling changes *)

Lemma next_run_config_frame (s : State) :
  snd (next_run_config s) =
  set_variant_name_manager (variant_name_manager (snd (next_run_config s))) s.
Proof.
  pose proof (next_run_config_keeps get_values_for_coordinate make_model_config
                get_field_name PerfAnalyzerConfig_new update_config
                (fun s : State =>
                   (models s, triton_env s, coordinate_data s, current_coordinate s,
                    coordinate_to_measure s, radius_offset s, magnitude_offset s,
                    neighborhood s, generator_started s, done s))
                (fun _ _ => eq_refl) s) as Hkeep.
  destruct (snd (next_run_config s)); destruct s; simpl in *. by simplify_eq.
Qed.

Lemma feed_frame measurements (s : State) :
  snd (feed measurements s) =
  set_coordinate_data (coordinate_data (snd (feed measurements s))) s.
Proof.
  pose proof (feed_keeps get_non_gpu_metric_value
                (fun s : State =>
                   (models s, variant_name_manager s, triton_env s, current_coordinate s,
                    coordinate_to_measure s, radius_offset s, magnitude_offset s,
                    neighborhood s, generator_started s, done s))
                measurements (fun _ _ => eq_refl) s) as Hkeep.
  destruct (snd (feed measurements s)); destruct s; simpl in *. by simplify_eq.
Qed.

Lemma pull_state frame (s : State) :
  snd (snd (next (frame, s))) =
  match frame with
  | Created => snd (next_run_config (set_generator_started true s))
  | AtYield =>
      match step s with
      | (Ok _, s1) => snd (next_run_config s1)
      | (Err _, s1) => s1
      end
  | Closed => s
  end.
Proof.
  destruct frame; simpl; [| |done]; unfold run_body, bindM, modify.
  - simpl. by destruct (next_run_config _) as [[rc|e] s'].
  - destruct (step s) as [[[]|e] s1]; [|done].
    by destruct (next_run_config s1) as [[rc|e] s'].
Qed.

Lemma pull_frame frame (s : State) :
  fst (snd (next (frame, s))) =
  match frame with
  | Closed => Closed
  | _ => match fst (next (frame, s)) with Yielded _ => AtYield | _ => Closed end
  end.
Proof.
  destruct frame; simpl; [| |done]; unfold run_body;
    by destruct (bindM _ _ s) as [[rc|e] s'].
Qed.

(** X6: the done flag is never lowered again: neither a pull nor a feedback
    call turns it from true to false, and a feedback call never changes it. *)
Theorem done_is_never_reset fs measurements :
  (_is_done (snd fs) = true -> _is_done (snd (snd (next fs))) = true) /\
  _is_done (snd (feed measurements (snd fs))) = _is_done (snd fs).
Proof.
  unfold _is_done. split.
  - destruct fs as [frame s]. cbn [snd]. intros Hdone. rewrite pull_state.
    destruct frame; [| |done].
    + by rewrite next_run_config_frame.
    + rewrite step_cases.
      destruct (coordinate_to_measure s) as [c|]; [|done].
      destruct (get_throughput (coordinate_data s) c);
        [destruct (enough_coordinates_initialized _ _)|];
        rewrite next_run_config_frame; simpl; by rewrite Hdone.
  - by apply (feed_keeps get_non_gpu_metric_value done).
Qed.

(** *** Invariants of every reachable state *)

Lemma reachable_state_shape models fs h :
  reached models fs h ->
  nb_center (neighborhood (snd fs)) = current_coordinate (snd fs) /\
  radius_offset (snd fs) = 0%Z /\
  magnitude_offset (snd fs) = 0%Z /\
  HillClimb.models (snd fs) = models /\
  (coordinate_to_measure (snd fs) = None -> done (snd fs) = true) /\
  generator_started (snd fs) = match fst fs with Created => false | _ => true end.
Proof.
  induction 1 as [s Hinit | [frame s] h Hreach IH | frame s h measurements Hreach IH].
  - unfold init in Hinit. destruct (determine_triton_server_env models); [|discriminate].
    injection Hinit as <-. simpl. by repeat split.
  - cbn [fst snd] in *. destruct IH as (Hnb & Hro & Hmo & Hms & Hnone & Hgs).
    rewrite pull_state, pull_frame.
    destruct frame.
    + rewrite next_run_config_frame.
      destruct (fst (next (Created, s))); simpl; by repeat split.
    + rewrite step_cases.
      destruct (fst (next (AtYield, s)));
        (destruct (coordinate_to_measure s) as [c|] eqn:Hc;
         [destruct (get_throughput (coordinate_data s) c);
          [destruct (enough_coordinates_initialized _ _)|];
          rewrite next_run_config_frame; simpl
         |rewrite ?Hc];
         split_and!; try done; intros ->; by rewrite orb_true_r).
    + done.
  - cbn [fst snd] in *. rewrite feed_frame. simpl. exact IH.
Qed.

(** X7: in every state a consumer can bring about, the neighborhood is
    centered at the current coordinate, the radius and the step magnitude in
    force are the configured ones (both offsets are zero), the models are
    those given at construction, a missing coordinate to measure comes with
    the done flag, and the started flag is up exactly when the generator has
    been pulled at least once. *)
Theorem reachable_state_invariants models fs h :
  reaches get_non_gpu_metric_value get_min_indexes get_radius get_step_magnitude
    get_neighborhood_config get_values_for_coordinate enough_coordinates_initialized
    calculate_new_coordinate pick_coordinate_to_initialize
    get_nearest_unvisited_neighbor make_model_config get_field_name
    PerfAnalyzerConfig_new update_config VariantNameManager_new models fs h ->
  nb_center (neighborhood (snd fs)) = current_coordinate (snd fs) /\
  _get_radius get_radius (snd fs) = get_radius /\
  _get_magnitude get_step_magnitude (snd fs) = get_step_magnitude /\
  HillClimb.models (snd fs) = models /\
  (coordinate_to_measure (snd fs) = None -> _is_done (snd fs) = true) /\
  generator_started (snd fs) = match fst fs with Created => false | _ => true end.
Proof.
  intros Hreach.
  destruct (reachable_state_shape models fs h Hreach)
    as (Hnb & Hro & Hmo & Hms & Hnone & Hgs).
  unfold _get_radius, _get_magnitude, _is_done. rewrite Hro, Hmo.
  split_and!; try done; lia.
Qed.

(** *** The data as a summary of the feedback history *)

Lemma pull_keeps_data fs :
  coordinate_data (snd (snd (next fs))) = coordinate_data (snd fs).
Proof. by apply (pull_keeps _ _ _ _ _ _ _ _ _ _ _ _ coordinate_data). Qed.

(** X8: the visit count of a coordinate is the number of feedback calls
    made so far while that coordinate was the one being measured, whatever
    those calls carried and whether or not they raised. *)
Theorem visit_count_counts_feedback_calls models fs h c :
  reached models fs h ->
  get_visit_count (coordinate_data (snd fs)) c =
  length (filter (fun call => fst call = Some c) h).
Proof.
  induction 1 as [s Hinit | fs h Hreach IH | frame s h measurements Hreach IH].
  - unfold init in Hinit. destruct (determine_triton_server_env models); [|discriminate].
    by injection Hinit as <-.
  - by rewrite pull_keeps_data.
  - cbn [snd] in *. destruct (coordinate_to_measure s) as [c0|] eqn:Hc0.
    + rewrite (feed_spec get_non_gpu_metric_value _ _ _ Hc0). simpl.
      assert (get_visit_count
                (match recorded_throughput get_non_gpu_metric_value measurements with
                 | Some t => set_throughput c0 t (increment_visit_count c0 (coordinate_data s))
                 | None => increment_visit_count c0 (coordinate_data s)
                 end) c =
              get_visit_count (increment_visit_count c0 (coordinate_data s)) c) as ->.
      { by destruct (recorded_throughput _ _). }
      rewrite get_visit_count_increment, filter_cons. simpl.
      destruct (decide (c0 = c)) as [->|Hne].
      * rewrite decide_True by done. simpl. rewrite IH. lia.
      * rewrite decide_False by congruence. done.
    + rewrite (feed_without_coordinate get_non_gpu_metric_value _ _ Hc0).
      rewrite filter_cons, decide_False by done. exact IH.
Qed.

(** The throughput of the latest feedback call that was made for [c] and
    carried a measurement as its single item. *)
Fixpoint latest_valid (c : Coordinate)
    (h : list (option Coordinate * option (list (option Measurement))))
  : option Throughput :=
  match h with
  | [] => None
  | (Some c0, Some [Some measurement]) :: earlier =>
      if decide (c0 = c)
      then Some (get_non_gpu_metric_value measurement "perf_throughput")
      else latest_valid c earlier
  | _ :: earlier => latest_valid c earlier
  end.

(** X9: the throughput stored for a coordinate is the one of the latest
    feedback call for it that carried exactly one measurement; failed or
    malformed feedback in between neither clears nor replaces it. *)
Theorem throughput_is_latest_valid models fs h c :
  reached models fs h ->
  get_throughput (coordinate_data (snd fs)) c = latest_valid c h.
Proof.
  induction 1 as [s Hinit | fs h Hreach IH | frame s h measurements Hreach IH].
  - unfold init in Hinit. destruct (determine_triton_server_env models); [|discriminate].
    injection Hinit as <-. apply lookup_empty.
  - by rewrite pull_keeps_data.
  - cbn [snd] in *. destruct (coordinate_to_measure s) as [c0|] eqn:Hc0.
    + rewrite (feed_spec get_non_gpu_metric_value _ _ _ Hc0). simpl.
      destruct measurements as [[|[m|] [|m' rest]]|]; simpl;
        rewrite ?get_throughput_set, ?get_throughput_increment; try exact IH.
      by destruct (decide (c0 = c)).
    + rewrite (feed_without_coordinate get_non_gpu_metric_value _ _ Hc0). simpl.
      exact IH.
Qed.

(** *** Feedback followed by a look at the last result *)

(** X10: right after a feedback call, the last result of the measured
    coordinate is the throughput of the measurement when the call carried
    exactly one, and otherwise whatever was stored for that coordinate before
    the call, be it nothing or the throughput of an earlier visit. *)
Theorem last_result_after_feedback measurements (s : State) c :
  coordinate_to_measure s = Some c ->
  fst (last_results (snd (feed measurements s))) =
  Ok (match measurements with
      | Some [Some measurement] =>
          Some (get_non_gpu_metric_value measurement "perf_throughput")
      | _ => get_throughput (coordinate_data s) c
      end).
Proof.
  intros Hc. rewrite (feed_spec get_non_gpu_metric_value _ _ _ Hc).
  unfold _get_last_results, the_coordinate, bindM, get, ret. simpl. rewrite Hc. simpl.
  f_equal.
  destruct measurements as [[|[m|] [|m' rest]]|]; simpl;
    rewrite ?get_throughput_set, ?get_throughput_increment; try done.
  by rewrite decide_True.
Qed.

(** X11: a failed run of a coordinate that already has a throughput from an
    earlier visit does not lead to the fallback: the step after it goes by
    the stored throughput and moves or samples as after a valid measurement. *)
Theorem failed_revisit_does_not_fall_back measurements (s : State) c t :
  coordinate_to_measure s = Some c ->
  get_throughput (coordinate_data s) c = Some t ->
  measurements = None \/ (exists rest, measurements = Some (None :: rest)) ->
  exists s',
    step (snd (feed measurements s)) = (Ok tt, s') /\
    coordinate_data s' = increment_visit_count c (coordinate_data s) /\
    coordinate_to_measure s' =
      if enough_coordinates_initialized (neighborhood s) (coordinate_data s')
      then Some (calculate_new_coordinate (neighborhood s) (coordinate_data s')
                   (get_step_magnitude + magnitude_offset s)%Z)
      else pick_coordinate_to_initialize (neighborhood s) (coordinate_data s').
Proof.
  intros Hc Ht Hfailed.
  rewrite (feed_spec get_non_gpu_metric_value _ _ _ Hc).
  assert (recorded_throughput get_non_gpu_metric_value measurements = None) as ->.
  { by destruct Hfailed as [->|[rest ->]]. }
  rewrite step_cases. simpl. rewrite Hc, get_throughput_increment, Ht.
  destruct (enough_coordinates_initialized _ _) eqn:Henough;
    eexists; (split; [reflexivity|]); simpl; by rewrite Henough.
Qed.

(** X12: an empty list of measurements is not taken as a failed run: the
    call raises [IndexError], after the visit has been counted and without
    storing a throughput. *)
Theorem empty_measurements_raise (s : State) c :
  coordinate_to_measure s = Some c ->
  fst (feed (Some []) s) = Err IndexError /\
  get_visit_count (coordinate_data (snd (feed (Some []) s))) c =
    get_visit_count (coordinate_data s) c + 1 /\
  throughputs (coordinate_data (snd (feed (Some []) s))) =
    throughputs (coordinate_data s).
Proof.
  intros Hc. rewrite (feed_spec get_non_gpu_metric_value _ _ _ Hc). simpl.
  split; [done|]. split; [|done].
  rewrite get_visit_count_increment. by rewrite decide_True.
Qed.

(** *** Building the entry of one model, case by case *)

Lemma next_model_run_config_cases i (s : State) :
  next_model_run_config i s =
  match get_values_for_coordinate (coordinate_to_measure s) with
  | Err e => (Err e, s)
  | Ok values =>
      match values !! i with
      | None => (Err IndexError, s)
      | Some dv =>
          match dv !! "max_batch_size"%string, dv !! "instance_count"%string with
          | Some mbs, Some ic =>
              match models s !! i with
              | None => (Err IndexError, s)
              | Some model =>
                  let made := make_model_config (param_combo mbs ic) model
                                (variant_name_manager s) in
                  match dv !! "concurrency"%string with
                  | None => (Err KeyError, set_variant_name_manager (snd made) s)
                  | Some conc =>
                      (Ok {| mrc_model_name := model_name model;
                             mrc_model_config := fst made;
                             mrc_perf_config :=
                               update_config (perf_analyzer_flags model)
                                 (update_config
                                    (perf_config_params (get_field_name (fst made)) conc)
                                    PerfAnalyzerConfig_new) |},
                       set_variant_name_manager (snd made) s)
                  end
              end
          | _, _ => (Err KeyError, s)
          end
      end
  end.
Proof.
  unfold _get_next_model_run_config, _get_next_model_config,
    _get_next_perf_analyzer_config, _get_coordinate_values, dict_getitem,
    py_getitem, bindM, get, lift, modify, ret, param_combo.
  destruct (get_values_for_coordinate (coordinate_to_measure s)) as [values|e] eqn:Hv;
    [|done].
  destruct (values !! i) as [dv|] eqn:Hdv; [|done].
  destruct (dv !! "max_batch_size"%string) as [mbs|]; [|done].
  destruct (dv !! "instance_count"%string) as [ic|]; [|done].
  destruct (models s !! i) as [model|] eqn:Hmodel; [|done].
  destruct (make_model_config _ model (variant_name_manager s)) as [mc names]. simpl.
  rewrite Hv, Hdv.
  destruct (dv !! "concurrency"%string) as [conc|]; [|done].
  rewrite Hmodel. simpl. by rewrite Hmodel.
Qed.

(** X13: when the Dimension lookup raises for the coordinate to measure,
    building the RunConfig raises the same exception and changes nothing; a
    first pull in that situation raises it and closes the generator, so that
    the next pull ends the sequence. *)
Theorem lookup_failure_closes_generator (s : State) e :
  get_values_for_coordinate (coordinate_to_measure s) = Err e ->
  models s <> [] ->
  next_run_config s = (Err e, s) /\
  next (Created, s) = (Raised e, (Closed, set_generator_started true s)) /\
  fst (next (snd (next (Created, s)))) = StopIteration.
Proof.
  intros Hv Hms.
  assert (forall s0 : State,
            coordinate_to_measure s0 = coordinate_to_measure s ->
            models s0 = models s ->
            next_run_config s0 = (Err e, s0)) as Hfail.
  { intros s0 Hc0 Hms0. unfold _get_next_run_config, bindM at 1, get. rewrite Hms0.
    destruct (models s) as [|m ms]; [done|]. simpl. unfold bindM at 1.
    change (_get_next_model_run_config _ _ _ _ _ 0 s0) with (next_model_run_config 0 s0).
    by rewrite next_model_run_config_cases, Hc0, Hv. }
  split; [by apply Hfail|].
  assert (next (Created, s) = (Raised e, (Closed, set_generator_started true s))) as Hpull.
  { simpl. unfold run_body, bindM at 1, modify. by rewrite Hfail. }
  split; [exact Hpull|]. by rewrite Hpull.
Qed.


(** *** The variant-name manager across one RunConfig *)

(** Registering the parameter combination of every model, in model order. *)
Fixpoint registered (ms : list Model) (vs : list (gmap string Z))
    (names : VariantNameManager) : VariantNameManager :=
  match ms, vs with
  | model :: ms', dv :: vs' =>
      match dv !! "max_batch_size"%string, dv !! "instance_count"%string with
      | Some mbs, Some ic =>
          registered ms' vs'
            (snd (make_model_config (param_combo mbs ic) model names))
      | _, _ => names
      end
  | _, _ => names
  end.

Lemma set_variant_name_manager_id (s : State) :
  set_variant_name_manager (variant_name_manager s) s = s.
Proof. by destruct s. Qed.

Lemma add_model_run_configs_threads c values :
  get_values_for_coordinate (Some c) = Ok values ->
  forall n i rc (s : State),
    coordinate_to_measure s = Some c ->
    i + n = length (models s) ->
    table_ok values (length (models s)) ->
    snd (add_model_run_configs get_values_for_coordinate make_model_config
           get_field_name PerfAnalyzerConfig_new update_config i n rc s) =
    set_variant_name_manager
      (registered (drop i (models s)) (drop i values) (variant_name_manager s)) s.
Proof.
  intros Hv. induction n as [|n IH]; intros i rc s Hc Hlen Htable.
  - simpl. rewrite drop_ge by lia. simpl. by rewrite set_variant_name_manager_id.
  - assert (i < length (models s)) as Hi by lia.
    destruct (lookup_lt_is_Some_2 _ _ Hi) as [model Hmodel].
    destruct (Htable i Hi) as (dv & Hdv & [mbs Hmbs] & [ic Hic] & [conc Hconc]).
    cbn [add_model_run_configs]. unfold bindM at 1.
    change (_get_next_model_run_config _ _ _ _ _ i s) with (next_model_run_config i s).
    rewrite next_model_run_config_cases, Hc, Hv, Hdv, Hmbs, Hic, Hmodel. cbn zeta.
    rewrite Hconc.
    rewrite IH; [|done|simpl; lia|done]. simpl.
    rewrite (drop_S _ _ _ Hmodel), (drop_S _ _ _ Hdv). simpl.
    by rewrite Hmbs, Hic.
Qed.

(** X15: while a RunConfig is built for a coordinate whose Dimension tables
    are complete, the model configuration of every model is made exactly
    once, in model order, each call starting from the variant-name manager
    the previous call left; apart from the manager the driver is unchanged. *)
Theorem variant_names_registered_in_model_order (s : State) c values :
  coordinate_to_measure s = Some c ->
  get_values_for_coordinate (Some c) = Ok values ->
  table_ok values (length (models s)) ->
  snd (next_run_config s) =
  set_variant_name_manager
    (registered (models s) values (variant_name_manager s)) s.
Proof.
  intros Hc Hv Htable. unfold _get_next_run_config, bindM, get.
  by rewrite (add_model_run_configs_threads c values Hv _ 0 _ s Hc).
Qed.

(** *** Construction and the first pull *)

(** X16: the first pull of a newly constructed driver does not step: it
    raises the started flag and builds the RunConfig of the starting
    coordinate, the minimum index vector, which stays both the center and the
    coordinate to measure; no data is recorded and the done flag stays down. *)
Theorem first_pull_does_not_step models (s : State) :
  start models = Ok s ->
  fst (next (Created, s)) =
    match next_run_config (set_generator_started true s) with
    | (Ok config, _) => Yielded config
    | (Err e, _) => Raised e
    end /\
  coordinate_to_measure (snd (snd (next (Created, s)))) = Some get_min_indexes /\
  current_coordinate (snd (snd (next (Created, s)))) = get_min_indexes /\
  coordinate_data (snd (snd (next (Created, s)))) = CoordinateData_new /\
  done (snd (snd (next (Created, s)))) = false /\
  generator_started (snd (snd (next (Created, s)))) = true.
Proof.
  intros Hinit. unfold init in Hinit.
  destruct (determine_triton_server_env models); [|discriminate].
  injection Hinit as <-. split.
  - simpl. unfold run_body, bindM, modify. simpl.
    by destruct (next_run_config _) as [[rc|e] s'].
  - rewrite pull_state, next_run_config_frame. by simpl.
Qed.

(** *** Why construction can fail *)


Context {CModelRunConfig CMeasurement : Type}.


End More.

Import Scenario.

(** A variant-name manager that lists the names it has handed out. *)
Definition make_config_named (pc : ParamCombo) (model : Model) (names : list string)
  : (ParamCombo * string) * list string :=
  ((pc, model_name model +:+ "_config_0"), names ++ [model_name model +:+ "_config_0"]).

Definition named_start : @UndirectedRunConfigGenerator Z (option Z) (list string) :=
  {| models := [model_a];
     variant_name_manager := [];
     triton_env := env_a;
     coordinate_data := CoordinateData_new;
     current_coordinate := [0; 0; 0];
     coordinate_to_measure := Some [0; 0; 0];
     radius_offset := 0;
     magnitude_offset := 0;
     neighborhood := {| nb_config := None; nb_center := [0; 0; 0] |};
     generator_started := false;
     done := false |}.


Lemma sampling_step_witness :
  coordinate_to_measure (snd hill_measured) = Some [0; 0; 0] /\
  get_throughput (coordinate_data (snd hill_measured)) [0; 0; 0] = Some 100%Z /\
  exists s',
    _step radius step_magnitude neighborhood_config (fun _ _ => false) new_coordinate
      (fun _ _ => Some [1; 0; 0]) nearest_unvisited (snd hill_measured) = (Ok tt, s') /\
    coordinate_to_measure s' = Some [1; 0; 0] /\
    current_coordinate s' = current_coordinate (snd hill_measured).
Proof.
  split; [reflexivity|]. split; [reflexivity|].
  destruct (sampling_step radius step_magnitude neighborhood_config (fun _ _ => false)
              new_coordinate (fun _ _ => Some [1; 0; 0]) nearest_unvisited
              (snd hill_measured) [0; 0; 0] 100%Z eq_refl eq_refl eq_refl)
    as (s' & Hstep & Hc & Hcur & _).
  exists s'. split; [exact Hstep|]. split; [exact Hc | exact Hcur].
Defined.

Lemma directed_step_witness :
  coordinate_to_measure (snd hill_measured) = Some [0; 0; 0] /\
  enough (neighborhood (snd hill_measured)) (coordinate_data (snd hill_measured)) = true /\
  exists s',
    _step radius step_magnitude neighborhood_config enough new_coordinate
      unvisited_center nearest_unvisited (snd hill_measured) = (Ok tt, s') /\
    coordinate_to_measure s' = Some (current_coordinate s').
Proof.
  split; [reflexivity|]. split; [reflexivity|].
  destruct (directed_step radius step_magnitude neighborhood_config enough
              new_coordinate unvisited_center nearest_unvisited
              (snd hill_measured) [0; 0; 0] 100%Z eq_refl eq_refl eq_refl)
    as (s' & new & _ & Hstep & Hcur & Hc & _).
  exists s'. split; [exact Hstep|]. by rewrite Hc, Hcur.
Defined.

Lemma done_is_never_reset_witness :
  _is_done (snd (snd (hill_pull hill_measured))) = true /\
  _is_done (snd (snd (hill_pull (snd (hill_pull hill_measured))))) = true.
Proof.
  split; [reflexivity|].
  exact (proj1 (done_is_never_reset metric radius step_magnitude neighborhood_config
                  values_for_coordinate enough new_coordinate unvisited_center
                  nearest_unvisited make_config config_name ∅ perf_update
                  (snd (hill_pull hill_measured)) None) eq_refl).
Defined.

Lemma reachable_state_invariants_witness :
  hill_reaches [model_a] hill_measured [(Some [0; 0; 0], Some [Some 100%Z])] /\
  nb_center (neighborhood (snd hill_measured)) = current_coordinate (snd hill_measured) /\
  generator_started (snd hill_measured) = true.
Proof.
  split; [exact hill_measured_reached|].
  destruct (reachable_state_invariants metric min_indexes radius step_magnitude
              neighborhood_config values_for_coordinate enough new_coordinate
              unvisited_center nearest_unvisited make_config config_name ∅ perf_update tt
              [model_a] hill_measured _ hill_measured_reached)
    as (Hnb & _ & _ & _ & _ & Hgs).
  split; [exact Hnb | exact Hgs].
Defined.

Lemma visit_count_counts_feedback_calls_witness :
  hill_reaches [model_a] hill_measured [(Some [0; 0; 0], Some [Some 100%Z])] /\
  get_visit_count (coordinate_data (snd hill_measured)) [0; 0; 0] = 1.
Proof.
  split; [exact hill_measured_reached|].
  exact (visit_count_counts_feedback_calls metric min_indexes radius step_magnitude
           neighborhood_config values_for_coordinate enough new_coordinate
           unvisited_center nearest_unvisited make_config config_name ∅ perf_update tt
           [model_a] hill_measured _ [0; 0; 0] hill_measured_reached).
Defined.

Lemma throughput_is_latest_valid_witness :
  hill_reaches [model_a] hill_measured [(Some [0; 0; 0], Some [Some 100%Z])] /\
  get_throughput (coordinate_data (snd hill_measured)) [0; 0; 0] = Some 100%Z.
Proof.
  split; [exact hill_measured_reached|].
  exact (throughput_is_latest_valid metric min_indexes radius step_magnitude
           neighborhood_config values_for_coordinate enough new_coordinate
           unvisited_center nearest_unvisited make_config config_name ∅ perf_update tt
           [model_a] hill_measured _ [0; 0; 0] hill_measured_reached).
Defined.

Lemma last_result_after_feedback_witness :
  coordinate_to_measure hill_produced = Some [0; 0; 0] /\
  fst (_get_last_results (snd (hill_feed (Some [Some 100%Z]) hill_produced))) =
    Ok (Some 100%Z) /\
  fst (_get_last_results (snd (hill_feed None hill_produced))) = Ok None.
Proof.
  split; [reflexivity|]. split.
  - exact (last_result_after_feedback metric (Some [Some 100%Z]) hill_produced
             [0; 0; 0] eq_refl).
  - exact (last_result_after_feedback metric None hill_produced [0; 0; 0] eq_refl).
Defined.

Lemma failed_revisit_does_not_fall_back_witness :
  coordinate_to_measure (snd hill_measured) = Some [0; 0; 0] /\
  get_throughput (coordinate_data (snd hill_measured)) [0; 0; 0] = Some 100%Z /\
  exists s',
    _step radius step_magnitude neighborhood_config enough new_coordinate
      unvisited_center nearest_unvisited
      (snd (hill_feed None (snd hill_measured))) = (Ok tt, s') /\
    get_visit_count (coordinate_data s') [0; 0; 0] = 2.
Proof.
  split; [reflexivity|]. split; [reflexivity|].
  destruct (failed_revisit_does_not_fall_back metric radius step_magnitude
              neighborhood_config enough new_coordinate unvisited_center
              nearest_unvisited None (snd hill_measured) [0; 0; 0] 100%Z
              eq_refl eq_refl (or_introl eq_refl))
    as (s' & Hstep & Hdata & _).
  exists s'. split; [exact Hstep|]. by rewrite Hdata.
Defined.

Lemma empty_measurements_raise_witness :
  coordinate_to_measure hill_produced = Some [0; 0; 0] /\
  fst (hill_feed (Some []) hill_produced) = Err IndexError.
Proof.
  split; [reflexivity|].
  exact (proj1 (empty_measurements_raise metric hill_produced [0; 0; 0] eq_refl)).
Defined.

Lemma lookup_failure_closes_generator_witness :
  values_for_coordinate (coordinate_to_measure (snd (snd (hill_pull hill_failed)))) =
    Err TypeError /\
  models (snd (snd (hill_pull hill_failed))) <> [] /\
  fst (hill_pull (Created, snd (snd (hill_pull hill_failed)))) = Raised TypeError.
Proof.
  split; [reflexivity|]. split; [discriminate|].
  destruct (lookup_failure_closes_generator radius step_magnitude neighborhood_config
              values_for_coordinate enough new_coordinate unvisited_center
              nearest_unvisited make_config config_name ∅ perf_update
              (snd (snd (hill_pull hill_failed))) TypeError eq_refl)
    as (_ & Hpull & _); [discriminate|].
  exact (f_equal fst Hpull).
Defined.


Lemma variant_names_registered_in_model_order_witness :
  coordinate_to_measure named_start = Some [0; 0; 0] /\
  variant_name_manager
    (snd (_get_next_run_config values_for_coordinate make_config_named config_name
            ∅ perf_update named_start)) = ["a_config_0"%string].
Proof.
  split; [reflexivity|].
  rewrite (variant_names_registered_in_model_order values_for_coordinate
             make_config_named config_name ∅ perf_update named_start [0; 0; 0] _
             eq_refl eq_refl hill_table_ok).
  reflexivity.
Defined.

Lemma first_pull_does_not_step_witness :
  init min_indexes neighborhood_config tt [model_a] = Ok hill_start /\
  coordinate_to_measure hill_produced = Some [0; 0; 0] /\
  generator_started hill_produced = true.
Proof.
  split; [reflexivity|].
  destruct (first_pull_does_not_step min_indexes radius step_magnitude
              neighborhood_config values_for_coordinate enough new_coordinate
              unvisited_center nearest_unvisited make_config config_name ∅ perf_update
              tt [model_a] hill_start eq_refl)
    as (_ & Hc & _ & _ & _ & Hgs).
  split; [exact Hc | exact Hgs].
Defined.


End HillClimbMore.

(** * The state-management checks: [qa/L0_state_management/check_results.py]

    The checks of [TestOutputValidator] that only search the analyzer log.
    What they read from the file system, the listing of the checkpoint
    directory and the contents of the log, is given to them as arguments. *)

Module StateChecks.

(** A Python [str]: a sequence of characters that are only ever compared. *)
Abbreviation Str := (list Ascii.ascii).

Definition str (s : string) : Str := String.list_ascii_of_string s.

Section Search.

Context {A : Type} `{EqDecision A}.

(** [sub] occurs in [s] at index [i]. *)
Definition occurs_at (s sub : list A) (i : nat) : bool :=
  bool_decide (take (length sub) (drop i s) = sub).

(** The indices from [start] on at which [sub] occurs in [s], in increasing
    order; an occurrence has to fit into [s]. *)
Definition occurrences_from (s sub : list A) (start : nat) : list nat :=
  filter (fun i => occurs_at s sub i = true)
    (seq start (length s + 1 - length sub - start)).

(** [s.find(sub, start)] for a non-negative [start]: the lowest index from
    [start] on at which [sub] occurs, or [-1]. *)
Definition find (s sub : list A) (start : nat) : Z :=
  match occurrences_from s sub start with
  | i :: _ => Z.of_nat i
  | [] => (-1)%Z
  end.

(** The counting loop of [check_interrupt_handling]:
    [while True: token_idx = log_contents.find(token, token_idx + 1); ...].
    [fuel] bounds the number of rounds. *)
Fixpoint count_rounds (fuel : nat) (log_contents token : list A)
    (token_idx found_count : Z) : option Z :=
  match fuel with
  | 0 => None
  | S fuel' =>
      let token_idx := find log_contents token (Z.to_nat (token_idx + 1)) in
      if (token_idx =? -1)%Z then Some found_count
      else count_rounds fuel' log_contents token token_idx (found_count + 1)%Z
  end.

End Search.

(** [check_interrupt_handling]; [None] when [fuel] does not suffice for the
    counting loop. *)
Definition check_interrupt_handling (fuel : nat) (profile_models : list Str)
    (checkpoint_files : list Str) (log_contents : Str) : option (Res bool) :=
  if negb (length checkpoint_files =? 2) then Some (Ok false)
  else if (find log_contents (str "SIGINT") 0 =? -1)%Z then Some (Ok false)
  else
    match py_getitem profile_models 1 with
    | Err e => Some (Err e)
    | Ok model =>
        let token := str "Profiling " ++ model in
        match count_rounds fuel log_contents token 0 0 with
        | None => None
        | Some found_count => Some (Ok (found_count =? 1)%Z)
        end
    end.

Section SearchFacts.

Context {A : Type} `{EqDecision A}.

Lemma filter_seq_first (P : nat -> Prop) `{forall i, Decision (P i)} n :
  forall a i rest,
    filter P (seq a n) = i :: rest ->
    a <= i < a + n /\ rest = filter P (seq (S i) (a + n - S i)).
Proof.
  induction n as [|n IH]; intros a i rest Hf; simpl in Hf; [discriminate|].
  rewrite filter_cons in Hf. destruct (decide (P a)) as [Hp|Hp].
  - injection Hf as <- <-. split; [lia|].
    by replace (a + S n - S a) with n by lia.
  - destruct (IH _ _ _ Hf) as [Hrange ->]. split; [lia|].
    by replace (S a + n) with (a + S n) by lia.
Qed.

Lemma occurrences_from_next (s sub : list A) start i rest :
  occurrences_from s sub start = i :: rest ->
  start <= i /\ occurrences_from s sub (S i) = rest.
Proof.
  unfold occurrences_from. intros Hf.
  apply filter_seq_first in Hf. destruct Hf as [Hrange ->].
  split; [lia|]. f_equal. f_equal. lia.
Qed.

Lemma count_rounds_spec (log_contents token : list A) fuel :
  forall token_idx found_count,
    (0 <= token_idx)%Z ->
    length (occurrences_from log_contents token (Z.to_nat (token_idx + 1))) < fuel ->
    count_rounds fuel log_contents token token_idx found_count =
    Some (found_count +
          Z.of_nat (length (occurrences_from log_contents token
                              (Z.to_nat (token_idx + 1)))))%Z.
Proof.
  induction fuel as [|fuel IH]; intros token_idx found_count Hpos Hfuel; [lia|].
  cbn [count_rounds]. unfold find.
  destruct (occurrences_from log_contents token (Z.to_nat (token_idx + 1)))
    as [|i rest] eqn:Hocc.
  - simpl. f_equal. lia.
  - destruct (occurrences_from_next _ _ _ _ _ Hocc) as [_ Hnext].
    destruct (Z.eqb_spec (Z.of_nat i) (-1)); [lia|].
    assert (Z.to_nat (Z.of_nat i + 1) = S i) as Hidx by lia.
    rewrite IH; rewrite ?Hidx, ?Hnext; simpl in *; [|lia|lia].
    f_equal. lia.
Qed.

Lemma length_occurrences_from (s sub : list A) start :
  length (occurrences_from s sub start) <= length s + 1 - start.
Proof.
  unfold occurrences_from.
  etrans; [apply length_filter|]. rewrite length_seq. lia.
Qed.

(** X18: the counting loop of the interrupt check, started as the check
    starts it, ends within [len(log) + 2] rounds and counts the occurrences
    of the token at the indices from 1 on, overlapping ones included: an
    occurrence at the very start of the log is not counted. *)
Theorem counting_loop_skips_index_zero (log_contents token : list A) fuel :
  length log_contents + 2 <= fuel ->
  count_rounds fuel log_contents token 0 0 =
  Some (Z.of_nat (length (occurrences_from log_contents token 1))).
Proof.
  intros Hfuel. rewrite count_rounds_spec; [done|lia|].
  change (Z.to_nat (0 + 1)) with 1.
  pose proof (length_occurrences_from log_contents token 1). lia.
Qed.

(** What [occurrences_from] lists: the indices [i >= start] that split [s]
    into [i] characters, then [sub], then the rest. *)
Lemma elem_of_occurrences_from (s sub : list A) start i :
  In i (occurrences_from s sub start) <->
  start <= i /\ exists pre post, s = pre ++ sub ++ post /\ length pre = i.
Proof.
  unfold occurrences_from, occurs_at.
  rewrite <- list_elem_of_In, list_elem_of_filter, bool_decide_eq_true,
    list_elem_of_In, in_seq.
  split.
  - intros [Htake [Hstart Hend]]. split; [done|].
    exists (take i s), (drop (length sub) (drop i s)).
    split; [|rewrite length_take; lia].
    rewrite <- (take_drop i s) at 1. f_equal.
    rewrite <- (take_drop (length sub) (drop i s)) at 1. by rewrite Htake.
  - intros [Hstart (pre & post & -> & <-)].
    rewrite drop_app_length, take_app_length. split; [done|].
    rewrite !length_app. lia.
Qed.

End SearchFacts.

(** X19: given enough rounds, the interrupt check answers [False] without
    looking at the models when the checkpoint directory does not hold exactly
    two files or the log has no [SIGINT]; otherwise it raises [IndexError]
    when there is no second profile model, and else answers whether the token
    made from that model occurs exactly once at the indices from 1 on. *)
Theorem interrupt_check_outcome fuel profile_models checkpoint_files log_contents :
  length log_contents + 2 <= fuel ->
  (length checkpoint_files <> 2 \/
   occurrences_from log_contents (str "SIGINT") 0 = [] ->
   check_interrupt_handling fuel profile_models checkpoint_files log_contents =
     Some (Ok false)) /\
  (length checkpoint_files = 2 ->
   occurrences_from log_contents (str "SIGINT") 0 <> [] ->
   (profile_models !! 1 = None ->
    check_interrupt_handling fuel profile_models checkpoint_files log_contents =
      Some (Err IndexError)) /\
   (forall model, profile_models !! 1 = Some model ->
    check_interrupt_handling fuel profile_models checkpoint_files log_contents =
      Some (Ok (bool_decide
                  (length (occurrences_from log_contents
                             (str "Profiling " ++ model) 1) = 1))))).
Proof.
  intros Hfuel. unfold check_interrupt_handling, find, py_getitem. split.
  - intros [Hfiles|Hsig].
    + by rewrite (proj2 (Nat.eqb_neq _ _) Hfiles).
    + rewrite Hsig. by destruct (length checkpoint_files =? 2).
  - intros Hfiles Hsig. rewrite Hfiles. change (2 =? 2) with true. cbn [negb].
    destruct (occurrences_from log_contents (str "SIGINT") 0) as [|i rest]; [done|].
    destruct (Z.eqb_spec (Z.of_nat i) (-1)); [lia|].
    split.
    + by intros ->.
    + intros model ->. rewrite counting_loop_skips_index_zero by done.
      do 2 f_equal.
      destruct (Z.eqb_spec
                  (Z.of_nat (length (occurrences_from log_contents
                                       (str "Profiling " ++ model) 1))) 1).
      * symmetry. apply bool_decide_eq_true. lia.
      * symmetry. apply bool_decide_eq_false. lia.
Qed.

(** One model was profiled once and the run was interrupted, but the log
    begins with the line of that model: the check fails. *)
Example interrupted_log_starting_with_the_token :
  check_interrupt_handling 100 [str "a"; str "b"] [str "0.ckpt"; str "1.ckpt"]
    (str "Profiling b: done. Received SIGINT.") = Some (Ok false) /\
  check_interrupt_handling 100 [str "a"; str "b"] [str "0.ckpt"; str "1.ckpt"]
    (str " Profiling b: done. Received SIGINT.") = Some (Ok true).
Proof. split; reflexivity. Qed.

Lemma counting_loop_skips_index_zero_witness :
  length (str "Profiling b, Profiling b") + 2 <= 30 /\
  count_rounds 30 (str "Profiling b, Profiling b") (str "Profiling b") 0 0 = Some 1%Z.
Proof.
  split; [vm_compute; lia|].
  rewrite (counting_loop_skips_index_zero (str "Profiling b, Profiling b")
             (str "Profiling b") 30); [reflexivity | vm_compute; lia].
Defined.

Lemma interrupt_check_outcome_witness :
  length (str "Profiling b: SIGINT") + 2 <= 30 /\
  check_interrupt_handling 30 [str "a"] [str "0.ckpt"; str "1.ckpt"]
    (str "Profiling b: SIGINT") = Some (Err IndexError).
Proof.
  split; [vm_compute; lia|].
  destruct (interrupt_check_outcome 30 [str "a"] [str "0.ckpt"; str "1.ckpt"]
              (str "Profiling b: SIGINT")) as [_ Hsecond]; [vm_compute; lia|].
  destruct Hsecond as [Hnone _]; [reflexivity | discriminate |].
  exact (Hnone eq_refl).
Defined.

End StateChecks.
